(** * workers/miflora.py: the MiFlora worker

    A shallow embedding of [MifloraWorker]: the discovery messages built by
    [config_device], the failure bookkeeping of [avail_offline], the read of
    one device in [update_device_state] and the pass over all devices in
    [status_update].

    Python integers are [Z]; the tri-state [is_online] (None / True / False)
    is [option bool]; dictionaries are association lists in insertion order;
    the worker object and the logger are threaded explicitly as a state; an
    exception is an explicit outcome. *)

From Stdlib Require Import ZArith List String Bool Lia.
Import ListNotations.
Open Scope string_scope.
Open Scope Z_scope.

(** ** Values *)

(** What a sensor read returns: an integer (moisture, light, conductivity,
    battery) or a decimal number (temperature), kept as mantissa and decimal
    exponent.  The worker only passes these values on. *)
Inductive number : Type :=
| PyInt (z : Z)
| PyFloat (mantissa exponent : Z).

(** The exception classes that can travel through the worker. *)
Inductive exn : Type :=
| BluetoothBackendException
| DeviceTimeoutError
| NameError (name : string)
| OtherException (class_name : string).

Definition is_BluetoothBackendException (e : exn) : bool :=
  match e with BluetoothBackendException => true | _ => false end.

Definition class_name_of (e : exn) : string :=
  match e with
  | BluetoothBackendException => "BluetoothBackendException"
  | DeviceTimeoutError => "DeviceTimeoutError"
  | NameError _ => "NameError"
  | OtherException c => c
  end.

(** ** Module namespace (lines 1-23)

    The names bound at module level, in binding order: the five import
    statements, the four assignments and the class statement. *)
Definition ATTR_BATTERY : string := "battery".
Definition ATTR_LOW_BATTERY : string := "low_battery".

Definition monitoredAttrs : list string :=
  ["temperature"; "moisture"; "light"; "conductivity"; ATTR_BATTERY].

Definition module_globals : list string :=
  [ "DEFAULT_PER_DEVICE_TIMEOUT"; "DEFAULT_ERRORS_TO_OFFLINE_COUNT";
    "DeviceTimeoutError";
    "MqttMessage"; "MqttConfigMessage";
    "timeout";
    "BaseWorker"; "retry";
    "logger";
    "REQUIREMENTS"; "ATTR_BATTERY"; "ATTR_LOW_BATTERY"; "monitoredAttrs";
    "_LOGGER"; "MifloraWorker" ].

(** The same namespace once [import json] is added to the module. *)
Definition globals_with_json : list string := "json" :: module_globals.

(** A name read from module scope resolves when the namespace binds it (no
    builtin is called [json], [MqttMessage] or [ATTR_BATTERY]). *)
Definition binds (globals : list string) (name : string) : bool :=
  existsb (String.eqb name) globals.

(** ** Messages (module mqtt) *)

Inductive payload_value : Type :=
| Literal (s : string)
| JsonDumps (data : list (string * number)).

Record MqttMessage : Type := mkMqttMessage {
  topic : string;
  payload : payload_value
}.

(** The values a discovery payload holds: strings, and the [device] mapping
    (strings and one list of strings). *)
Inductive device_value : Type :=
| DStr (s : string)
| DList (items : list string).

Inductive pyvalue : Type :=
| VStr (s : string)
| VDict (entries : list (string * device_value)).

Definition dict : Type := list (string * pyvalue).

Inductive component_kind : Type := SENSOR | BINARY_SENSOR.

Record MqttConfigMessage : Type := mkMqttConfigMessage {
  component : component_kind;
  config_name : string;
  config_payload : dict
}.

(** [d[k]] as [dict.get]. *)
Fixpoint dict_get (k : string) (d : dict) : option pyvalue :=
  match d with
  | [] => None
  | (k', v) :: rest => if String.eqb k k' then Some v else dict_get k rest
  end.

(** [d[k] = v]: an existing key keeps its place, a new key goes last. *)
Fixpoint dict_set (k : string) (v : pyvalue) (d : dict) : dict :=
  match d with
  | [] => [(k, v)]
  | (k', v') :: rest =>
      if String.eqb k k' then (k, v) :: rest else (k', v') :: dict_set k v rest
  end.

(** [d.update(other)]. *)
Definition dict_update (d other : dict) : dict :=
  fold_left (fun acc kv => dict_set (fst kv) (snd kv) acc) other d.

(** ** The base class (workers/base.py)

    [MifloraWorker] inherits its naming helpers from [BaseWorker], which is
    not among the sources: they are an interface here, and every statement
    below holds for any implementation of it.  Variadic arguments are
    lists. *)
Class BaseWorker : Type := {
  repr_self : string;
  format_topic : list string -> string;
  format_prefixed_topic : list string -> string;
  format_discovery_id : string -> list string -> string;
  format_discovery_name : list string -> string;
  format_discovery_topic : string -> list string -> string
}.

(** ** The worker object and the logger *)

Record device_data : Type := mkDevice {
  mac : string
}.

Record MifloraWorker : Type := mkWorker {
  per_device_timeout : Z;
  errors_to_offline : Z;
  error_count : Z;
  is_online : option bool;
  update_retries : nat;
  devices : list (string * device_data)
}.

Definition set_error_count (n : Z) (w : MifloraWorker) : MifloraWorker :=
  {| per_device_timeout := per_device_timeout w;
     errors_to_offline := errors_to_offline w;
     error_count := n;
     is_online := is_online w;
     update_retries := update_retries w;
     devices := devices w |}.

Definition set_is_online (b : option bool) (w : MifloraWorker) : MifloraWorker :=
  {| per_device_timeout := per_device_timeout w;
     errors_to_offline := errors_to_offline w;
     error_count := error_count w;
     is_online := b;
     update_retries := update_retries w;
     devices := devices w |}.

Definition set_devices (table : list (string * device_data)) (w : MifloraWorker)
    : MifloraWorker :=
  {| per_device_timeout := per_device_timeout w;
     errors_to_offline := errors_to_offline w;
     error_count := error_count w;
     is_online := is_online w;
     update_retries := update_retries w;
     devices := table |}.

(** The arguments one [MiFloraPoller] is constructed with (line 38-39). *)
Record poller_construction : Type := mkConstruction {
  with_mac : string;
  with_backend : string;
  with_adapter : string
}.

Inductive log_call : Type := LogInfo | LogDebug | LogException.

Inductive log_arg : Type :=
| ArgStr (s : string)
| ArgInt (z : Z).

Record log_entry : Type := mkLog {
  log_kind : log_call;
  log_format : string;
  log_args : list log_arg
}.

(** The state a method runs in: the worker object [self] and what has been
    handed to the logger so far, oldest first. *)
Record state : Type := mkState {
  self : MifloraWorker;
  logged : list log_entry
}.

Definition emit (k : log_call) (fmt : string) (args : list log_arg) (s : state) : state :=
  {| self := self s; logged := (logged s ++ [mkLog k fmt args])%list |}.

Definition with_self (f : MifloraWorker -> MifloraWorker) (s : state) : state :=
  {| self := f (self s); logged := logged s |}.

(** ** The sensor (miflora.miflora_poller)

    A call into the sensor library returns, raises, or does not come back
    before the deadline. *)
Inductive call (A : Type) : Type :=
| Returns (a : A)
| Raises (e : exn)
| Hangs.
Arguments Returns {A} a.
Arguments Raises {A} e.
Arguments Hangs {A}.

(** How the poller of one device behaves during one invocation of
    [update_device_state]. *)
Record MiFloraPoller : Type := mkPoller {
  clear_cache : call unit;
  parameter_value : string -> call number
}.

(** ** Code that runs under a deadline: state, exceptions, overrun *)

Inductive outcome (A : Type) : Type :=
| Ok (a : A)
| Raise (e : exn)
| Hang.
Arguments Ok {A} a.
Arguments Raise {A} e.
Arguments Hang {A}.

Definition M (A : Type) : Type := state -> outcome A * state.

Definition ret {A} (a : A) : M A := fun s => (Ok a, s).

Definition bind {A B} (m : M A) (k : A -> M B) : M B :=
  fun s =>
    match m s with
    | (Ok a, s') => k a s'
    | (Raise e, s') => (Raise e, s')
    | (Hang, s') => (Hang, s')
    end.

Notation "x <- m ;; k" := (bind m (fun x => k))
  (at level 61, m at next level, right associativity).
Notation "m ;;; k" := (bind m (fun _ => k))
  (at level 61, right associativity).

Definition invoke {A} (c : call A) : M A :=
  fun s =>
    match c with
    | Returns a => (Ok a, s)
    | Raises e => (Raise e, s)
    | Hangs => (Hang, s)
    end.

Definition get_self : M MifloraWorker := fun s => (Ok (self s), s).

Definition modify_self (f : MifloraWorker -> MifloraWorker) : M unit :=
  fun s => (Ok tt, with_self f s).

(** Reading a module-level name: [NameError] when the namespace lacks it. *)
Definition load_global (globals : list string) (name : string) : M unit :=
  fun s => if binds globals name then (Ok tt, s) else (Raise (NameError name), s).

(** ** Collaborators modelled from the specification *)

(** What the guarded read hands back to [status_update]: a value or an
    exception; an overrun has become the deadline's exception. *)
Inductive result (A : Type) : Type :=
| Returned (a : A)
| Raised (e : exn).
Arguments Returned {A} a.
Arguments Raised {A} e.

(** Modelled from the spec: [retry] of workers/base.py is not among the
    sources.  Section 4.2: the operation is invoked up to [retries + 1]
    times; only a failure of the given class triggers a retry, at once; any
    other failure propagates immediately; exhausting the retries propagates
    the last failure.  [func n] is the [n]-th invocation of the wrapped
    function. *)
Fixpoint retry {A} (func : nat -> M A) (retries : nat)
    (exception_type : exn -> bool) (attempt : nat) : M A :=
  fun s =>
    match func attempt s with
    | (Raise e, s') =>
        if exception_type e then
          match retries with
          | O => (Raise e, s')
          | S r => retry func r exception_type (S attempt) s'
          end
        else (Raise e, s')
    | other => other
    end.

(** Modelled from the spec: [timeout] of the interruptingcow library.
    Section 4.3: the body is raced against a timer; when the timer elapses
    first the body is abandoned and the given exception is raised in its
    place; a body that finishes in time is passed through. *)
Definition timeout {A} (seconds : Z) (exception : exn) (body : M A)
    : state -> result A * state :=
  fun s =>
    match body s with
    | (Ok a, s') => (Returned a, s')
    | (Raise e, s') => (Raised e, s')
    | (Hang, s') => (Raised exception, s')
    end.

(** ** The methods of [MifloraWorker] *)

Section Worker.

Context {base : BaseWorker}.

(** [config_device] (lines 48-106). *)
Definition device_dict (name mac : string) : pyvalue :=
  VDict [ ("identifiers", DList [mac; format_discovery_id mac [name]]);
          ("manufacturer", DStr "Xiaomi");
          ("model", DStr "MiFlora");
          ("name", DStr (format_discovery_name [name])) ].

Definition attr_payload (name mac attr : string) : dict :=
  let payload :=
    [ ("unique_id", VStr (format_discovery_id mac [name; attr]));
      ("state_topic", VStr (format_prefixed_topic [name; attr]));
      ("name", VStr (format_discovery_name [name; attr]));
      ("device", device_dict name mac) ] in
  if String.eqb attr "light" then
    dict_update payload
      [ ("unique_id", VStr (format_discovery_id mac [name; "illuminance"]));
        ("device_class", VStr "illuminance");
        ("unit_of_measurement", VStr "lux") ]
  else if String.eqb attr "moisture" then
    dict_update payload
      [ ("icon", VStr "mdi:water"); ("unit_of_measurement", VStr "%") ]
  else if String.eqb attr "conductivity" then
    dict_update payload
      [ ("icon", VStr "mdi:leaf"); ("unit_of_measurement", VStr "µS/cm") ]
  else if String.eqb attr "temperature" then
    dict_update payload
      [ ("device_class", VStr "temperature"); ("unit_of_measurement", VStr "°C") ]
  else if String.eqb attr ATTR_BATTERY then
    dict_update payload
      [ ("device_class", VStr "battery"); ("unit_of_measurement", VStr "%") ]
  else payload.

Definition config_device (name mac : string) : list MqttConfigMessage :=
  let ret :=
    map (fun attr =>
           mkMqttConfigMessage SENSOR
             (format_discovery_topic mac [name; attr])
             (attr_payload name mac attr))
        monitoredAttrs in
  (ret ++
  [ mkMqttConfigMessage BINARY_SENSOR
      (format_discovery_topic mac [name; ATTR_LOW_BATTERY])
      [ ("unique_id", VStr (format_discovery_id mac [name; ATTR_LOW_BATTERY]));
        ("state_topic", VStr (format_prefixed_topic [name; ATTR_LOW_BATTERY]));
        ("name", VStr (format_discovery_name [name; ATTR_LOW_BATTERY]));
        ("device", device_dict name mac);
        ("device_class", VStr "battery") ] ])%list.

(** [config] (lines 42-46). *)
Definition config (availability_topic : string) (w : MifloraWorker)
    : list MqttConfigMessage :=
  flat_map (fun item => config_device (fst item) (mac (snd item))) (devices w).

(** [_setup] (lines 29-40).  Before the call [self.devices] maps each name
    to its address: that table is [configured].  The call logs, builds one
    poller per device and replaces each entry by the mapping with [mac] and
    [poller]; the pollers it built are returned here for reference.
    [adapter] is the worker's [adapter] attribute, when it has one. *)
Definition _setup (adapter : option string) (configured : list (string * string))
    (s : state) : list (string * poller_construction) * state :=
  let s0 := emit LogInfo "Adding %d %s devices"
              [ArgInt (Z.of_nat (List.length configured)); ArgStr repr_self] s in
  let s1 := fold_left
              (fun acc item =>
                 emit LogDebug "Adding %s device '%s' (%s)"
                   [ArgStr repr_self; ArgStr (fst item); ArgStr (snd item)] acc)
              configured s0 in
  ( map (fun item =>
           (fst item,
            mkConstruction (snd item) "BluepyBackend"
              (match adapter with Some a => a | None => "hci0" end)))
        configured,
    with_self
      (set_devices (map (fun item => (fst item, mkDevice (snd item))) configured))
      s1 ).

(** [avail_offline] (lines 108-116).  [is_online is not False] holds for
    None and for True. *)
Definition is_not (v : option bool) (b : bool) : bool :=
  match v with
  | Some b' => negb (Bool.eqb b' b)
  | None => true
  end.

Definition avail_offline (name : string) (s : state) : list MqttMessage * state :=
  let s1 := with_self (fun w => set_error_count (error_count w + 1) w) s in
  let s2 := emit LogInfo "  Error count for %s is %d"
              [ArgStr name; ArgInt (error_count (self s1))] s1 in
  if (errors_to_offline (self s2) <=? error_count (self s2))
     && is_not (is_online (self s2)) false
  then
    ( [mkMqttMessage (format_topic [name; "availability"]) (Literal "offline")],
      with_self (set_is_online (Some false)) s2 )
  else ([], s2).

(** [update_device_state] (lines 150-165), in the namespace [globals]. *)
Definition update_device_state (globals : list string)
    (name : string) (poller : MiFloraPoller) : M (list MqttMessage) :=
  invoke (clear_cache poller) ;;;
  temperature <- invoke (parameter_value poller "temperature") ;;
  moisture <- invoke (parameter_value poller "moisture") ;;
  light <- invoke (parameter_value poller "light") ;;
  conductivity <- invoke (parameter_value poller "conductivity") ;;
  load_global globals "ATTR_BATTERY" ;;;
  battery <- invoke (parameter_value poller ATTR_BATTERY) ;;
  let data :=
    [ ("temperature", temperature); ("moisture", moisture); ("light", light);
      ("conductivity", conductivity); ("battery", battery) ] in
  load_global globals "MqttMessage" ;;;
  let topic := format_topic [name] in
  load_global globals "json" ;;;
  let ret0 := [mkMqttMessage topic (JsonDumps data)] in
  w <- get_self ;;
  if (errors_to_offline w <=? error_count w) || is_not (is_online w) true
  then
    load_global globals "MqttMessage" ;;;
    modify_self (set_is_online (Some true)) ;;;
    modify_self (set_error_count 0) ;;;
    ret (ret0 ++ [mkMqttMessage (format_topic [name; "availability"]) (Literal "online")])%list
  else
    modify_self (set_error_count 0) ;;;
    ret ret0.

(** [status_update] (lines 118-148).  The generator is run to its end: what
    it yielded, in order, the exception that left it (if any), and the state
    it left behind.  [world name n] is the behaviour of the poller of device
    [name] at the [n]-th invocation of [update_device_state] in this pass. *)
Record run : Type := mkRun {
  yielded : list (list MqttMessage);
  raised : option exn;
  final : state
}.

Definition yield (item : list MqttMessage) (rest : run) : run :=
  {| yielded := item :: yielded rest; raised := raised rest; final := final rest |}.

Definition guarded_update (globals : list string) (name : string)
    (pollers : nat -> MiFloraPoller) (s : state)
    : result (list MqttMessage) * state :=
  timeout (per_device_timeout (self s)) DeviceTimeoutError
    (retry (fun n => update_device_state globals name (pollers n))
           (update_retries (self s)) is_BluetoothBackendException 0)
    s.

Fixpoint status_update_devices (globals : list string)
    (items : list (string * device_data))
    (world : string -> nat -> MiFloraPoller) (s : state) : run :=
  match items with
  | [] => {| yielded := []; raised := None; final := s |}
  | (name, data) :: rest =>
      let s1 := emit LogDebug "Updating %s device '%s' (%s)"
                  [ArgStr repr_self; ArgStr name; ArgStr (mac data)] s in
      match guarded_update globals name (world name) s1 with
      | (Returned messages, s2) =>
          yield messages (status_update_devices globals rest world s2)
      | (Raised BluetoothBackendException, s2) =>
          let s3 := emit LogException
                      "Error during update of %s device '%s' (%s): %s"
                      [ArgStr repr_self; ArgStr name; ArgStr (mac data);
                       ArgStr (class_name_of BluetoothBackendException)] s2 in
          let (messages, s4) := avail_offline name s3 in
          yield messages (status_update_devices globals rest world s4)
      | (Raised DeviceTimeoutError, s2) =>
          let s3 := emit LogException
                      "Time out during update of %s device '%s' (%s)"
                      [ArgStr repr_self; ArgStr name; ArgStr (mac data)] s2 in
          let (messages, s4) := avail_offline name s3 in
          yield messages (status_update_devices globals rest world s4)
      | (Raised e, s2) => {| yielded := []; raised := Some e; final := s2 |}
      end
  end.

Definition status_update (globals : list string)
    (world : string -> nat -> MiFloraPoller) (s : state) : run :=
  let s0 := emit LogInfo "Updating %d %s devices"
              [ArgInt (Z.of_nat (List.length (devices (self s)))); ArgStr repr_self] s in
  status_update_devices globals (devices (self s0)) world s0.

End Worker.

(** ** Vocabulary for the statements *)

Section Vocabulary.

Context {base : BaseWorker}.

Definition telemetry (name : string) (data : list (string * number)) : MqttMessage :=
  mkMqttMessage (format_topic [name]) (JsonDumps data).

Definition online_event (name : string) : MqttMessage :=
  mkMqttMessage (format_topic [name; "availability"]) (Literal "online").

Definition offline_event (name : string) : MqttMessage :=
  mkMqttMessage (format_topic [name; "availability"]) (Literal "offline").

(** The test of line 111, after the increment of line 109. *)
Definition goes_offline (w : MifloraWorker) : bool :=
  (errors_to_offline w <=? error_count w + 1) && is_not (is_online w) false.

(** The test of line 161. *)
Definition goes_online (w : MifloraWorker) : bool :=
  (errors_to_offline w <=? error_count w) || is_not (is_online w) true.



(** What the sensor hands to one invocation of [update_device_state]: the
    calls of lines 151-158 in order, stopping at the first that fails. *)
Definition and_then {A B} (c : call A) (k : A -> call B) : call B :=
  match c with
  | Returns a => k a
  | Raises e => Raises e
  | Hangs => Hangs
  end.

Definition readings (poller : MiFloraPoller) : call (list (string * number)) :=
  and_then (clear_cache poller) (fun _ =>
  and_then (parameter_value poller "temperature") (fun temperature =>
  and_then (parameter_value poller "moisture") (fun moisture =>
  and_then (parameter_value poller "light") (fun light =>
  and_then (parameter_value poller "conductivity") (fun conductivity =>
  and_then (parameter_value poller ATTR_BATTERY) (fun battery =>
  Returns [ ("temperature", temperature); ("moisture", moisture);
            ("light", light); ("conductivity", conductivity);
            ("battery", battery) ])))))).

(** Lines 160-165 on their own, once the reads have returned [data]. *)
Definition publish (globals : list string) (name : string)
    (data : list (string * number)) : M (list MqttMessage) :=
  load_global globals "MqttMessage" ;;;
  load_global globals "json" ;;;
  w <- get_self ;;
  if goes_online w
  then
    load_global globals "MqttMessage" ;;;
    modify_self (set_is_online (Some true)) ;;;
    modify_self (set_error_count 0) ;;;
    ret [telemetry name data; online_event name]
  else
    modify_self (set_error_count 0) ;;;
    ret [telemetry name data].

(** The worker after a completed success: lines 161-164. *)
Definition after_success (w : MifloraWorker) : MifloraWorker :=
  set_error_count 0 (if goes_online w then set_is_online (Some true) w else w).

(** The worker after a handled failure: lines 109-112. *)
Definition after_failure (w : MifloraWorker) : MifloraWorker :=
  let w1 := set_error_count (error_count w + 1) w in
  if goes_offline w then set_is_online (Some false) w1 else w1.

(** A run of consecutive handled failures, one per listed device. *)
Fixpoint failure_run (names : list string) (s : state)
    : list (list MqttMessage) * state :=
  match names with
  | [] => ([], s)
  | name :: rest =>
      let (out, s1) := avail_offline name s in
      let (outs, s2) := failure_run rest s1 in
      (out :: outs, s2)
  end.

(** The failures of a run, numbered from [start]: the one numbered
    [crossing] is answered with the offline event when [armed]. *)
Fixpoint answers (armed : bool) (crossing start : nat) (names : list string)
    : list (list MqttMessage) :=
  match names with
  | [] => []
  | name :: rest =>
      (if armed && Nat.eqb start crossing then [offline_event name] else [])
      :: answers armed crossing (S start) rest
  end.

(** The two failure classes the loop of [status_update] handles. *)
Definition anticipated (e : exn) : bool :=
  match e with
  | BluetoothBackendException | DeviceTimeoutError => true
  | _ => false
  end.

Definition surfaces_anticipated (r : run) : bool :=
  match raised r with
  | Some e => anticipated e
  | None => false
  end.

(** The log record of each handler of [status_update]. *)
Definition failure_record (e : exn) (name : string) (data : device_data) : log_entry :=
  match e with
  | DeviceTimeoutError =>
      mkLog LogException "Time out during update of %s device '%s' (%s)"
        [ArgStr repr_self; ArgStr name; ArgStr (mac data)]
  | _ =>
      mkLog LogException "Error during update of %s device '%s' (%s): %s"
        [ArgStr repr_self; ArgStr name; ArgStr (mac data);
         ArgStr (class_name_of e)]
  end.

Definition debug_record (name : string) (data : device_data) : log_entry :=
  mkLog LogDebug "Updating %s device '%s' (%s)"
    [ArgStr repr_self; ArgStr name; ArgStr (mac data)].

Definition record (entry : log_entry) (s : state) : state :=
  {| self := self s; logged := (logged s ++ [entry])%list |}.

Definition not_ok {A} (r : outcome A) : Prop :=
  match r with Ok _ => False | _ => True end.

(** Successive passes of [status_update] over the same worker object: each
    pass starts from the state the previous one left, also when an
    exception ended it. *)
Fixpoint poll_cycles (globals : list string)
    (worlds : list (string -> nat -> MiFloraPoller)) (s : state) : list run :=
  match worlds with
  | [] => []
  | world :: later =>
      let r := status_update globals world s in
      r :: poll_cycles globals later (final r)
  end.

(** What one pass shows from outside: the items it yielded, the exception
    that ended it, and the streak and status it left. *)
Definition summary (r : run)
    : list (list MqttMessage) * option exn * Z * option bool :=
  (yielded r, raised r, error_count (self (final r)), is_online (self (final r))).

(** The state after successive passes. *)
Fixpoint poll_cycles_final (globals : list string)
    (worlds : list (string -> nat -> MiFloraPoller)) (s : state) : state :=
  match worlds with
  | [] => s
  | world :: later =>
      poll_cycles_final globals later (final (status_update globals world s))
  end.

(** What handling one device does to the worker, and the item it yields:
    a failure handed to [avail_offline] (lines 109-116), or a read that
    completed (lines 160-165), which needs the name [json] to resolve. *)
Inductive tracker_step (globals : list string) (w : MifloraWorker) (name : string)
    : list MqttMessage -> MifloraWorker -> Prop :=
| handled_failure :
    tracker_step globals w name
      (if goes_offline w then [offline_event name] else [])
      (after_failure w)
| completed_read (values : list (string * number)) :
    binds globals "json" = true ->
    map fst values = monitoredAttrs ->
    tracker_step globals w name
      (telemetry name values :: if goes_online w then [online_event name] else [])
      (after_success w).

(** Steps in a row, one per listed device, with the items they yield. *)
Inductive tracker_trace (globals : list string)
    : MifloraWorker -> list string -> list (list MqttMessage) -> MifloraWorker -> Prop :=
| trace_done (w : MifloraWorker) : tracker_trace globals w [] [] w
| trace_step (w w1 w2 : MifloraWorker) (name : string) (item : list MqttMessage)
    (names : list string) (items : list (list MqttMessage)) :
    tracker_step globals w name item w1 ->
    tracker_trace globals w1 names items w2 ->
    tracker_trace globals w (name :: names) (item :: items) w2.

(** The availability a message announces: [Some true] for the payload
    [online], [Some false] for [offline], nothing for any other message. *)
Definition availability_of (m : MqttMessage) : option bool :=
  match payload m with
  | Literal p =>
      if String.eqb p "online" then Some true
      else if String.eqb p "offline" then Some false
      else None
  | JsonDumps _ => None
  end.

(** Read in order from the status [status], every availability message
    announces a status other than the one before it. *)
Fixpoint changes_only (status : option bool) (messages : list MqttMessage) : bool :=
  match messages with
  | [] => true
  | m :: rest =>
      match availability_of m with
      | Some b => is_not status b && changes_only (Some b) rest
      | None => changes_only status rest
      end
  end.

(** The status the last availability message announces, [status] when
    there is none. *)
Fixpoint status_after (status : option bool) (messages : list MqttMessage)
    : option bool :=
  match messages with
  | [] => status
  | m :: rest =>
      match availability_of m with
      | Some b => status_after (Some b) rest
      | None => status_after status rest
      end
  end.

(** The streak is not negative, and once it has reached the threshold the
    status is Offline. *)
Definition consistent (w : MifloraWorker) : Prop :=
  0 <= error_count w /\
  (errors_to_offline w <= error_count w -> is_online w = Some false).

Definition is_offline_message (m : MqttMessage) : bool :=
  match payload m with
  | Literal p => String.eqb p "offline"
  | JsonDumps _ => false
  end.

Definition all_messages (runs : list run) : list MqttMessage :=
  List.concat (List.concat (map yielded runs)).

Definition payload_entry (key : string) (m : MqttConfigMessage) : option pyvalue :=
  dict_get key (config_payload m).

(** The tag each discovery message builds its [unique_id] from, in the
    order of the messages (line 59, overridden on line 68, and line 97). *)
Definition identifier_tags : list string :=
  ["temperature"; "moisture"; "illuminance"; "conductivity"; "battery";
   "low_battery"].

Definition unique_id_of (m : MqttConfigMessage) : option pyvalue :=
  dict_get "unique_id" (config_payload m).

End Vocabulary.

(** ** Sample inputs

    A concrete [BaseWorker] for evaluating examples (parts joined with [/]
    and [_] under the worker name), three sensor behaviours, and workers
    as the class creates them: [error_count = 0], [is_online = None]. *)

Definition sample_base : BaseWorker :=
  {| repr_self := "miflora";
     format_topic := fun args => String.concat "/" ("miflora" :: args);
     format_prefixed_topic := fun args =>
       String.concat "/" ("home" :: "miflora" :: args);
     format_discovery_id := fun mac args =>
       "bt-mqtt-gateway/" ++ mac ++ "/" ++ String.concat "_" ("miflora" :: args);
     format_discovery_name := fun args => String.concat "_" ("miflora" :: args);
     format_discovery_topic := fun mac args =>
       mac ++ "/" ++ String.concat "_" ("miflora" :: args) |}.

Definition healthy : MiFloraPoller :=
  {| clear_cache := Returns tt;
     parameter_value := fun p =>
       if String.eqb p "temperature" then Returns (PyFloat 215 (-1))
       else if String.eqb p "moisture" then Returns (PyInt 40)
       else if String.eqb p "light" then Returns (PyInt 1200)
       else if String.eqb p "conductivity" then Returns (PyInt 350)
       else Returns (PyInt 97) |}.

Definition healthy_data : list (string * number) :=
  [ ("temperature", PyFloat 215 (-1)); ("moisture", PyInt 40);
    ("light", PyInt 1200); ("conductivity", PyInt 350); ("battery", PyInt 97) ].

Definition unreachable : MiFloraPoller :=
  {| clear_cache := Returns tt;
     parameter_value := fun _ => Raises BluetoothBackendException |}.

Definition silent : MiFloraPoller :=
  {| clear_cache := Returns tt;
     parameter_value := fun p =>
       if String.eqb p "temperature" then Returns (PyFloat 215 (-1)) else Hangs |}.

(** The moisture read raises an exception of another class. *)
Definition broken : MiFloraPoller :=
  {| clear_cache := Returns tt;
     parameter_value := fun p =>
       if String.eqb p "temperature" then Returns (PyFloat 215 (-1))
       else Raises (OtherException "ValueError") |}.

(** The keys that occur in discovery payloads (lines 58-102). *)
Definition payload_keys : list string :=
  ["unique_id"; "state_topic"; "name"; "device"; "device_class";
   "unit_of_measurement"; "icon"].

Definition fresh (threshold : Z) (retries : nat)
    (devs : list (string * device_data)) : state :=
  {| self := {| per_device_timeout := 8;
                errors_to_offline := threshold;
                error_count := 0;
                is_online := None;
                update_retries := retries;
                devices := devs |};
     logged := [] |}.

Definition device_A : string * device_data := ("A", mkDevice "C4-7C-8D-00-00-0A").
Definition device_B : string * device_data := ("B", mkDevice "C4-7C-8D-00-00-0B").
Definition device_D1 : string * device_data := ("D1", mkDevice "C4-7C-8D-00-00-D1").

(** A succeeds on every read, B never answers. *)
Definition world_AB (name : string) (n : nat) : MiFloraPoller :=
  if String.eqb name "A" then healthy else silent.

Definition always (p : MiFloraPoller) (name : string) (n : nat) : MiFloraPoller := p.

(** One transport failure, then the given behaviour. *)
Definition after_one_failure (p : MiFloraPoller) (name : string) (n : nat)
    : MiFloraPoller :=
  match n with
  | O => unreachable
  | S _ => p
  end.

(** ** Basic facts *)

Section Facts.

Context {base : BaseWorker}.

Lemma binds_module_globals :
  binds module_globals "ATTR_BATTERY" = true /\
  binds module_globals "MqttMessage" = true /\
  binds module_globals "json" = false.
Proof. repeat split; reflexivity. Qed.

Lemma binds_globals_with_json :
  binds globals_with_json "ATTR_BATTERY" = true /\
  binds globals_with_json "MqttMessage" = true /\
  binds globals_with_json "json" = true.
Proof. repeat split; reflexivity. Qed.

(** Every module-level name that [avail_offline], [status_update] and
    [config_device] read is bound. *)
Lemma other_methods_resolve :
  forallb (binds module_globals)
    [ "_LOGGER"; "MqttMessage"; "MqttConfigMessage"; "logger"; "timeout";
      "retry"; "DeviceTimeoutError"; "monitoredAttrs"; "ATTR_BATTERY";
      "ATTR_LOW_BATTERY" ] = true.
Proof. reflexivity. Qed.

Lemma update_device_state_split globals name poller s :
  binds globals "ATTR_BATTERY" = true ->
  update_device_state globals name poller s =
    match readings poller with
    | Returns data => publish globals name data s
    | Raises e => (Raise e, s)
    | Hangs => (Hang, s)
    end.
Proof.
  intros Hb.
  unfold update_device_state, readings, publish, bind, invoke, and_then,
    load_global, get_self, goes_online, telemetry, online_event, ATTR_BATTERY.
  rewrite Hb.
  destruct (clear_cache poller) as [[]|e0|]; try reflexivity.
  destruct (parameter_value poller "temperature"); try reflexivity.
  destruct (parameter_value poller "moisture"); try reflexivity.
  destruct (parameter_value poller "light"); try reflexivity.
  destruct (parameter_value poller "conductivity"); try reflexivity.
  destruct (parameter_value poller "battery"); reflexivity.
Qed.

Lemma publish_without_json globals name data s :
  binds globals "MqttMessage" = true ->
  binds globals "json" = false ->
  publish globals name data s = (Raise (NameError "json"), s).
Proof.
  intros Hm Hj. unfold publish, bind, load_global. now rewrite Hm, Hj.
Qed.

Lemma publish_with_json globals name data s :
  binds globals "MqttMessage" = true ->
  binds globals "json" = true ->
  publish globals name data s =
    ( Ok (telemetry name data ::
          if goes_online (self s) then [online_event name] else []),
      with_self after_success s ).
Proof.
  intros Hm Hj.
  unfold publish, bind, load_global, get_self, modify_self, ret, after_success,
    with_self.
  rewrite Hm, Hj. cbn. destruct (goes_online (self s)); reflexivity.
Qed.

Lemma avail_offline_eq name s :
  avail_offline name s =
    ( if goes_offline (self s) then [offline_event name] else [],
      record (mkLog LogInfo "  Error count for %s is %d"
                [ArgStr name; ArgInt (error_count (self s) + 1)])
             (with_self after_failure s) ).
Proof.
  unfold avail_offline, goes_offline, after_failure, goes_offline, record, emit,
    with_self, offline_event.
  cbn. destruct (_ && _); reflexivity.
Qed.

End Facts.

(** ** Retries and the deadline *)

Section Guarded.

Context {base : BaseWorker}.

(** A read that does not complete leaves the worker and the log as they
    were: [update_device_state] writes only on lines 163-164. *)
Lemma update_device_state_failure_state globals name poller s r s' :
  update_device_state globals name poller s = (r, s') ->
  not_ok r -> s' = s.
Proof.
  unfold update_device_state, bind, invoke, load_global, get_self, modify_self, ret.
  destruct (clear_cache poller) as [[]|e0|];
    [|intros H _; now inversion H..].
  destruct (parameter_value poller "temperature");
    [|intros H _; now inversion H..].
  destruct (parameter_value poller "moisture");
    [|intros H _; now inversion H..].
  destruct (parameter_value poller "light");
    [|intros H _; now inversion H..].
  destruct (parameter_value poller "conductivity");
    [|intros H _; now inversion H..].
  destruct (binds globals "ATTR_BATTERY");
    [|intros H _; now inversion H].
  destruct (parameter_value poller ATTR_BATTERY);
    [|intros H _; now inversion H..].
  destruct (binds globals "MqttMessage");
    [|intros H _; now inversion H].
  destruct (binds globals "json");
    [|intros H _; now inversion H].
  destruct (_ || _); intros H Hr; inversion H; subst r; contradiction.
Qed.

Lemma retry_failure_state {A} (func : nat -> M A) et :
  (forall n s r s', func n s = (r, s') -> not_ok r -> s' = s) ->
  forall retries attempt s r s',
    retry func retries et attempt s = (r, s') -> not_ok r -> s' = s.
Proof.
  intros Hf. induction retries as [|n IH]; intros attempt s r s'; simpl;
    destruct (func attempt s) as [[a|e|] s1] eqn:E; intros H Hr.
  - inversion H; subst. contradiction.
  - assert (s1 = s) by (eapply Hf; [exact E|exact I]). subst s1.
    destruct (et e); now inversion H.
  - inversion H; subst. eapply Hf; [exact E|exact I].
  - inversion H; subst. contradiction.
  - assert (s1 = s) by (eapply Hf; [exact E|exact I]). subst s1.
    destruct (et e).
    + eapply IH; eassumption.
    + now inversion H.
  - inversion H; subst. eapply Hf; [exact E|exact I].
Qed.

(** A result that is not a failure of the retried class ends the loop. *)
Lemma retry_stops {A} (func : nat -> M A) retries et attempt s :
  (forall e, fst (func attempt s) = Raise e -> et e = false) ->
  retry func retries et attempt s = func attempt s.
Proof.
  intros H. destruct retries; simpl;
    destruct (func attempt s) as [[a|e|] s1]; try reflexivity;
    rewrite (H e eq_refl); reflexivity.
Qed.

(** Failures of the retried class are retried at once while budget is left. *)
Lemma retry_skips {A} (func : nat -> M A) et s :
  forall k retries attempt,
    (k <= retries)%nat ->
    (forall i, (i < k)%nat ->
       exists e, func (attempt + i)%nat s = (Raise e, s) /\ et e = true) ->
    retry func retries et attempt s =
    retry func (retries - k) et (attempt + k)%nat s.
Proof.
  induction k as [|k IH]; intros retries attempt Hk Hfail.
  - now rewrite Nat.sub_0_r, Nat.add_0_r.
  - destruct retries as [|n]; [lia|].
    destruct (Hfail 0%nat ltac:(lia)) as [e [E Het]].
    rewrite Nat.add_0_r in E. simpl retry at 1. rewrite E, Het.
    rewrite (IH n (S attempt)); [|lia|].
    + now replace (S attempt + k)%nat with (attempt + S k)%nat by lia.
    + intros i Hi. destruct (Hfail (S i) ltac:(lia)) as [e' [E' Het']].
      exists e'. split; [|exact Het'].
      now replace (S attempt + i)%nat with (attempt + S i)%nat by lia.
Qed.

(** With no budget left the last failure is propagated. *)
Lemma retry_exhausted {A} (func : nat -> M A) et s e :
  forall retries attempt,
    (forall i, (i <= retries)%nat -> func (attempt + i)%nat s = (Raise e, s)) ->
    et e = true ->
    retry func retries et attempt s = (Raise e, s).
Proof.
  induction retries as [|n IH]; intros attempt Hfail Het.
  - simpl. specialize (Hfail 0%nat ltac:(lia)). rewrite Nat.add_0_r in Hfail.
    now rewrite Hfail, Het.
  - simpl. pose proof (Hfail 0%nat ltac:(lia)) as E. rewrite Nat.add_0_r in E.
    rewrite E, Het. apply IH; [|exact Het].
    intros i Hi. specialize (Hfail (S i) ltac:(lia)).
    now replace (S attempt + i)%nat with (attempt + S i)%nat by lia.
Qed.

(** The guarded read after [k] transport failures, when the next attempt is
    not one more transport failure. *)
Lemma guarded_update_at globals name pollers s k :
  binds globals "ATTR_BATTERY" = true ->
  (k <= update_retries (self s))%nat ->
  (forall i, (i < k)%nat ->
     readings (pollers i) = Raises BluetoothBackendException) ->
  readings (pollers k) <> Raises BluetoothBackendException ->
  guarded_update globals name pollers s =
  timeout (per_device_timeout (self s)) DeviceTimeoutError
    (update_device_state globals name (pollers k)) s.
Proof.
  intros Hb Hk Hfail Hlast. unfold guarded_update, timeout.
  rewrite (retry_skips _ _ s k); [|exact Hk|].
  - rewrite retry_stops; [reflexivity|]. simpl.
    intros e. rewrite update_device_state_split by exact Hb.
    destruct (readings (pollers k)) as [data|e'|] eqn:E; simpl.
    + unfold publish, bind, load_global.
      destruct (binds globals "MqttMessage"); simpl;
        [|intros H; now inversion H].
      destruct (binds globals "json"); simpl;
        [|intros H; now inversion H].
      unfold get_self, modify_self, ret. simpl.
      destruct (goes_online (self s)); simpl; intros H; inversion H.
    + intros H. inversion H. subst e'.
      destruct e; try reflexivity. now elim Hlast.
    + intros H. inversion H.
  - intros i Hi. exists BluetoothBackendException. split; [|reflexivity].
    simpl. rewrite update_device_state_split by exact Hb.
    now rewrite (Hfail i Hi).
Qed.

Lemma guarded_update_exhausted globals name pollers s :
  binds globals "ATTR_BATTERY" = true ->
  (forall i, (i <= update_retries (self s))%nat ->
     readings (pollers i) = Raises BluetoothBackendException) ->
  guarded_update globals name pollers s = (Raised BluetoothBackendException, s).
Proof.
  intros Hb Hfail. unfold guarded_update, timeout.
  rewrite (retry_exhausted _ _ s BluetoothBackendException); [reflexivity| |reflexivity].
  intros i Hi. simpl. rewrite update_device_state_split by exact Hb.
  now rewrite (Hfail i Hi).
Qed.

(** A guarded read that ends in an exception has changed nothing. *)
Lemma guarded_update_failure_state globals name pollers s e s' :
  guarded_update globals name pollers s = (Raised e, s') -> s' = s.
Proof.
  unfold guarded_update, timeout.
  destruct (retry _ _ _ _ s) as [[a|e'|] s1] eqn:E; intros H; inversion H; subst.
  - eapply retry_failure_state; [|exact E|exact I].
    intros n s0 r s0'. apply update_device_state_failure_state.
  - eapply retry_failure_state; [|exact E|exact I].
    intros n s0 r s0'. apply update_device_state_failure_state.
Qed.

End Guarded.

(** ** One iteration of the loop of [status_update] *)

Section Loop.

Context {base : BaseWorker}.

Lemma step_returned globals name data rest world s messages s2 :
  guarded_update globals name (world name) (record (debug_record name data) s)
    = (Returned messages, s2) ->
  status_update_devices globals ((name, data) :: rest) world s =
  yield messages (status_update_devices globals rest world s2).
Proof.
  intros E. simpl. change (emit LogDebug _ _ s) with (record (debug_record name data) s).
  now rewrite E.
Qed.

Lemma step_handled globals name data rest world s e s2 :
  guarded_update globals name (world name) (record (debug_record name data) s)
    = (Raised e, s2) ->
  anticipated e = true ->
  status_update_devices globals ((name, data) :: rest) world s =
  yield (fst (avail_offline name (record (failure_record e name data) s2)))
    (status_update_devices globals rest world
       (snd (avail_offline name (record (failure_record e name data) s2)))).
Proof.
  intros E He. simpl. change (emit LogDebug _ _ s) with (record (debug_record name data) s).
  rewrite E. destruct e; try discriminate He.
  - change (emit LogException _ _ s2)
      with (record (failure_record BluetoothBackendException name data) s2).
    now destruct (avail_offline name _).
  - change (emit LogException _ _ s2)
      with (record (failure_record DeviceTimeoutError name data) s2).
    now destruct (avail_offline name _).
Qed.

Lemma step_propagated globals name data rest world s e s2 :
  guarded_update globals name (world name) (record (debug_record name data) s)
    = (Raised e, s2) ->
  anticipated e = false ->
  status_update_devices globals ((name, data) :: rest) world s =
  {| yielded := []; raised := Some e; final := s2 |}.
Proof.
  intros E He. simpl. change (emit LogDebug _ _ s) with (record (debug_record name data) s).
  rewrite E. destruct e; try discriminate He; reflexivity.
Qed.

(** Whatever leaves the loop is none of the two classes it handles. *)
Lemma loop_contains_anticipated globals items world :
  forall s, surfaces_anticipated (status_update_devices globals items world s) = false.
Proof.
  induction items as [|[name data] rest IH]; intros s; [reflexivity|].
  destruct (guarded_update globals name (world name)
              (record (debug_record name data) s)) as [[messages|e] s2] eqn:E.
  - rewrite (step_returned _ _ _ _ _ _ _ _ E). apply IH.
  - destruct (anticipated e) eqn:He.
    + rewrite (step_handled _ _ _ _ _ _ _ _ E He). apply IH.
    + rewrite (step_propagated _ _ _ _ _ _ _ _ E He).
      unfold surfaces_anticipated. simpl. exact He.
Qed.

Lemma avail_offline_at_most_one name s :
  (List.length (fst (avail_offline name s)) <= 1)%nat.
Proof.
  rewrite avail_offline_eq. simpl. destruct (goes_offline (self s)); simpl; lia.
Qed.

End Loop.

(** ** Failure bookkeeping: [avail_offline] *)

Section Tracker.

Context {base : BaseWorker}.





Lemma failure_run_streak names :
  forall s,
    error_count (self (snd (failure_run names s))) =
    error_count (self s) + Z.of_nat (List.length names).
Proof.
  induction names as [|name rest IH]; intros s.
  - simpl. lia.
  - cbn [failure_run]. rewrite avail_offline_eq.
    destruct (failure_run rest _) as [outs s2] eqn:E.
    cbn [snd]. change s2 with (snd (outs, s2)). rewrite <- E, IH.
    cbn [List.length]. rewrite Nat2Z.inj_succ.
    cbn [self record with_self]. unfold after_failure.
    destruct (goes_offline (self s));
      cbn [error_count set_is_online set_error_count]; lia.
Qed.

(** Once the status is Offline a failure is silent and keeps it Offline. *)
Lemma failure_run_silent_when_offline names :
  forall s,
    is_online (self s) = Some false ->
    List.concat (fst (failure_run names s)) = [].
Proof.
  induction names as [|name rest IH]; intros s Hoff; [reflexivity|].
  cbn [failure_run]. rewrite avail_offline_eq.
  destruct (failure_run rest _) as [outs s2] eqn:E.
  assert (Hg : goes_offline (self s) = false).
  { unfold goes_offline. rewrite Hoff. simpl. apply andb_false_r. }
  rewrite Hg. cbn [fst List.concat app].
  change outs with (fst (outs, s2)). rewrite <- E. apply IH.
  simpl. unfold after_failure. rewrite Hg. exact Hoff.
Qed.

Lemma failure_run_at_most_once names :
  forall s, (List.length (List.concat (fst (failure_run names s))) <= 1)%nat.
Proof.
  induction names as [|name rest IH]; intros s; [simpl; lia|].
  cbn [failure_run]. rewrite avail_offline_eq.
  destruct (failure_run rest _) as [outs s2] eqn:E.
  cbn [fst List.concat]. change outs with (fst (outs, s2)). rewrite <- E.
  destruct (goes_offline (self s)) eqn:Hg.
  - rewrite failure_run_silent_when_offline; [simpl; lia|].
    simpl. unfold after_failure. now rewrite Hg.
  - simpl. apply IH.
Qed.

Lemma answers_unarmed crossing names :
  forall start, answers false crossing start names = map (fun _ => []) names.
Proof.
  induction names as [|name rest IH]; intros start; [reflexivity|].
  simpl. now rewrite IH.
Qed.

Lemma answers_past crossing names :
  forall armed start,
    (crossing < start)%nat ->
    answers armed crossing start names = map (fun _ => []) names.
Proof.
  induction names as [|name rest IH]; intros armed start Hlt; [reflexivity|].
  simpl. rewrite IH by lia.
  replace (Nat.eqb start crossing) with false
    by (symmetry; apply Nat.eqb_neq; lia).
  now rewrite andb_false_r.
Qed.

Lemma failure_run_silent_outputs names :
  forall s,
    is_online (self s) = Some false ->
    fst (failure_run names s) = map (fun _ => []) names.
Proof.
  induction names as [|name rest IH]; intros s Hoff; [reflexivity|].
  cbn [failure_run]. rewrite avail_offline_eq.
  destruct (failure_run rest _) as [outs s2] eqn:E.
  assert (Hg : goes_offline (self s) = false).
  { unfold goes_offline. rewrite Hoff. simpl. apply andb_false_r. }
  rewrite Hg. cbn [fst map]. f_equal.
  change outs with (fst (outs, s2)). rewrite <- E. apply IH.
  simpl. unfold after_failure. rewrite Hg. exact Hoff.
Qed.

Lemma failure_run_answers names :
  forall s start,
    fst (failure_run names s) =
    answers (is_not (is_online (self s)) false)
      (start + Z.to_nat (errors_to_offline (self s) - error_count (self s) - 1))
      start names.
Proof.
  induction names as [|name rest IH]; intros s start; [reflexivity|].
  cbn [failure_run]. rewrite avail_offline_eq.
  destruct (failure_run rest _) as [outs s2] eqn:E.
  cbn [fst answers].
  change outs with (fst (outs, s2)). rewrite <- E.
  unfold goes_offline.
  destruct (errors_to_offline (self s) <=? error_count (self s) + 1) eqn:Hle.
  - apply Z.leb_le in Hle.
    replace (Z.to_nat (errors_to_offline (self s) - error_count (self s) - 1))
      with 0%nat by lia.
    rewrite Nat.add_0_r, Nat.eqb_refl, andb_true_r, andb_true_l.
    f_equal. rewrite answers_past by lia.
    destruct (is_not (is_online (self s)) false) eqn:Hs.
    + apply failure_run_silent_outputs. simpl. unfold after_failure, goes_offline.
      apply Z.leb_le in Hle. now rewrite Hle, Hs.
    + apply failure_run_silent_outputs. simpl. unfold after_failure, goes_offline.
      rewrite Hs, andb_false_r. simpl.
      destruct (is_online (self s)) as [[|]|]; simpl in Hs; congruence.
  - apply Z.leb_gt in Hle.
    replace (Nat.eqb start
               (start + Z.to_nat (errors_to_offline (self s) - error_count (self s) - 1)))
      with false by (symmetry; apply Nat.eqb_neq; lia).
    rewrite andb_false_r, andb_false_l. f_equal.
    rewrite (IH _ (S start)). simpl. unfold after_failure, goes_offline.
    replace (errors_to_offline (self s) <=? error_count (self s) + 1) with false
      by (symmetry; apply Z.leb_gt; lia).
    simpl. f_equal. lia.
Qed.

(** C5 (as amended): the streak and the status are the worker's, so the
    run that counts is the worker's.  In a run of consecutive failures
    handled by one worker, of whichever of its devices and started in any
    state, at most one offline event is emitted; it is the answer to the
    failure at which the shared streak first reaches [errors_to_offline]
    (the first failure when it was reached already), it goes to the
    availability topic of the device handled at that failure, and it is
    emitted only when the status was not Offline before the run; every other
    failure of the run is answered with nothing; and each failure adds
    exactly one to the streak, which is never reset or clamped. *)
Theorem offline_event_once_per_failure_run :
  forall (names : list string) (s : state),
    (List.length (List.concat (fst (failure_run names s))) <= 1)%nat
    /\ fst (failure_run names s) =
       answers (is_not (is_online (self s)) false)
         (Z.to_nat (errors_to_offline (self s) - error_count (self s) - 1))
         0 names
    /\ error_count (self (snd (failure_run names s))) =
       error_count (self s) + Z.of_nat (List.length names).
Proof.
  intros names s. split; [apply failure_run_at_most_once|].
  split; [apply (failure_run_answers names s 0)|apply failure_run_streak].
Qed.

End Tracker.

(** ** The pass over the devices: [status_update] *)

Section Pass.

Context {base : BaseWorker}.

(** C3: a call of [update_device_state] whose reads all return raises
    [NameError] for the name [json], which the module never binds, in any
    state and without changing it; within [status_update], also when
    transport failures were retried first, neither handler catches it:
    nothing is yielded for the device, the exception leaves the generator
    and the remaining devices are not polled. *)
Theorem success_path_raises_NameError :
  forall (name : string) (data : device_data)
         (rest : list (string * device_data))
         (world : string -> nat -> MiFloraPoller) (s : state) (k : nat)
         (values : list (string * number)),
    (k <= update_retries (self s))%nat ->
    (forall i, (i < k)%nat ->
       readings (world name i) = Raises BluetoothBackendException) ->
    readings (world name k) = Returns values ->
    (forall s', update_device_state module_globals name (world name k) s'
                = (Raise (NameError "json"), s'))
    /\ status_update_devices module_globals ((name, data) :: rest) world s =
       {| yielded := [];
          raised := Some (NameError "json");
          final := record (debug_record name data) s |}.
Proof.
  intros name data rest world s k values Hk Hfail Hok.
  assert (Hcall : forall s', update_device_state module_globals name (world name k) s'
                             = (Raise (NameError "json"), s')).
  { intros s'. rewrite update_device_state_split by reflexivity.
    rewrite Hok. now apply publish_without_json. }
  split; [exact Hcall|].
  apply step_propagated; [|reflexivity].
  rewrite (guarded_update_at module_globals name (world name) _ k);
    [|reflexivity|exact Hk|exact Hfail|now rewrite Hok].
  unfold timeout. now rewrite Hcall.
Qed.

(** C8: when the guarded read of a device ends in
    [BluetoothBackendException] or [DeviceTimeoutError], the iteration logs
    it, hands it to [avail_offline], yields what that returns (at most one
    message) and goes on with the next device from the state [avail_offline]
    left; and no pass ever ends in one of these two exceptions. *)
Theorem anticipated_failures_are_contained :
  forall (globals : list string) (name : string) (data : device_data)
         (rest : list (string * device_data))
         (world : string -> nat -> MiFloraPoller) (s s2 : state) (e : exn),
    guarded_update globals name (world name) (record (debug_record name data) s)
      = (Raised e, s2) ->
    anticipated e = true ->
    let s3 := record (failure_record e name data)
                (record (debug_record name data) s) in
    status_update_devices globals ((name, data) :: rest) world s =
      yield (fst (avail_offline name s3))
        (status_update_devices globals rest world (snd (avail_offline name s3)))
    /\ (List.length (fst (avail_offline name s3)) <= 1)%nat
    /\ self (snd (avail_offline name s3)) = after_failure (self s)
    /\ (forall world' s',
          surfaces_anticipated (status_update globals world' s') = false).
Proof.
  intros globals name data rest world s s2 e E He s3.
  pose proof (guarded_update_failure_state _ _ _ _ _ _ E) as Hs2. subst s2.
  split; [exact (step_handled _ _ _ _ _ _ _ _ E He)|].
  split; [apply avail_offline_at_most_one|].
  split; [now rewrite avail_offline_eq|].
  intros world' s'. apply loop_contains_anticipated.
Qed.


(** X1: lines 160-165 where [json] resolves: in a namespace that binds
    [ATTR_BATTERY], [MqttMessage] and [json], a call whose reads return
    [values] returns the telemetry message of the five fields, followed by
    the online event exactly when the streak had reached
    [errors_to_offline] or the status was not Online; it resets the streak
    to 0 and sets the status to Online in that same case. *)
Theorem success_transition_when_json_is_bound :
  forall (globals : list string) (name : string) (poller : MiFloraPoller)
         (s : state) (values : list (string * number)),
    binds globals "ATTR_BATTERY" = true ->
    binds globals "MqttMessage" = true ->
    binds globals "json" = true ->
    readings poller = Returns values ->
    update_device_state globals name poller s =
      ( Ok (telemetry name values ::
            if goes_online (self s) then [online_event name] else []),
        with_self after_success s )
    /\ error_count (after_success (self s)) = 0
    /\ is_online (after_success (self s)) =
       (if goes_online (self s) then Some true else is_online (self s))
    /\ map fst values = monitoredAttrs.
Proof.
  intros globals name poller s values Ha Hm Hj Hok.
  split.
  { rewrite update_device_state_split by exact Ha. rewrite Hok.
    now apply publish_with_json. }
  unfold after_success.
  split; [reflexivity|].
  split; [destruct (goes_online (self s)); reflexivity|].
  revert Hok. unfold readings, and_then.
  destruct (clear_cache poller) as [[]|e0|]; try discriminate.
  destruct (parameter_value poller "temperature"); try discriminate.
  destruct (parameter_value poller "moisture"); try discriminate.
  destruct (parameter_value poller "light"); try discriminate.
  destruct (parameter_value poller "conductivity"); try discriminate.
  destruct (parameter_value poller ATTR_BATTERY); try discriminate.
  intros H. inversion H. reflexivity.
Qed.

End Pass.

(** ** Discovery messages: [config_device] *)

Section Discovery.

Context {base : BaseWorker}.

(** C10 (as amended): [config_device] returns six messages, a [SENSOR]
    message for each of temperature, moisture, light, conductivity and
    battery followed by one [BINARY_SENSOR] message for low_battery, each
    under the discovery topic of the address, the device name and the
    parameter name.  The [unique_id] of each is [format_discovery_id] of the
    address, the device name and a tag: the parameter name, except for light,
    whose tag is [illuminance]; the six tags are pairwise distinct. *)
Theorem config_device_messages :
  forall (name mac : string),
    List.length (config_device name mac) = 6%nat
    /\ map component (config_device name mac) =
       [SENSOR; SENSOR; SENSOR; SENSOR; SENSOR; BINARY_SENSOR]
    /\ map config_name (config_device name mac) =
       map (fun attr => format_discovery_topic mac [name; attr])
           (monitoredAttrs ++ [ATTR_LOW_BATTERY])
    /\ map unique_id_of (config_device name mac) =
       map (fun tag => Some (VStr (format_discovery_id mac [name; tag])))
           identifier_tags
    /\ NoDup identifier_tags.
Proof.
  intros name mac. repeat split; try reflexivity.
  unfold identifier_tags.
  repeat (constructor; [simpl; intuition discriminate|]). constructor.
Qed.

End Discovery.

(** ** The methods at concrete inputs *)

Section Scenarios.

Existing Instance sample_base.


(** C2 at its input, threshold 1, A healthy and B silent, two passes.  With
    A first, each pass ends in [NameError] at A before anything is yielded
    and before B is polled.  With B first, the first pass yields B's offline
    event and the second an empty item for B, and each then ends in
    [NameError] at A.  No telemetry message is yielded in either order. *)
Theorem two_device_scenario_stops_at_A :
  map summary
    (poll_cycles module_globals [world_AB; world_AB]
       (fresh 1 0 [device_A; device_B]))
  = [ ([], Some (NameError "json"), 0, None);
      ([], Some (NameError "json"), 0, None) ]
  /\ map summary
       (poll_cycles module_globals [world_AB; world_AB]
          (fresh 1 0 [device_B; device_A]))
     = [ ([[offline_event "B"]], Some (NameError "json"), 1, Some false);
         ([[]], Some (NameError "json"), 2, Some false) ].
Proof. split; vm_compute; reflexivity. Qed.

(** C4 at its input: one device, threshold 3, one retry, four passes in
    which every attempt fails and a fifth in which the reads return.  The
    first four passes behave as the claim says; the fifth ends in
    [NameError]: no telemetry message, no online event, the streak still 4
    and the status still Offline. *)
Theorem single_device_scenario_stops_at_the_success :
  map summary
    (poll_cycles module_globals
       [always unreachable; always unreachable; always unreachable;
        always unreachable; always healthy]
       (fresh 3 1 [device_D1]))
  = [ ([[]], None, 1, None);
      ([[]], None, 2, None);
      ([[offline_event "D1"]], None, 3, Some false);
      ([[]], None, 4, Some false);
      ([], Some (NameError "json"), 4, Some false) ].
Proof. vm_compute. reflexivity. Qed.

(** C6 at a failing input: streak 4, status Offline, threshold 3.  The read
    that succeeds raises [NameError] and leaves the worker as it was: the
    streak is not reset and no online event is returned. *)
Theorem success_does_not_reset_the_streak :
  update_device_state module_globals "D1" healthy
    {| self := {| per_device_timeout := 8; errors_to_offline := 3;
                  error_count := 4; is_online := Some false;
                  update_retries := 1; devices := [device_D1] |};
       logged := [] |}
  = ( Raise (NameError "json"),
      {| self := {| per_device_timeout := 8; errors_to_offline := 3;
                    error_count := 4; is_online := Some false;
                    update_retries := 1; devices := [device_D1] |};
         logged := [] |} ).
Proof. reflexivity. Qed.

(** C7 at a failing input: one healthy device on a new worker.  The pass
    yields nothing, so no telemetry message is produced, and ends in
    [NameError]. *)
Theorem success_yields_no_telemetry :
  yielded (status_update module_globals (always healthy) (fresh 3 1 [device_D1])) = []
  /\ raised (status_update module_globals (always healthy) (fresh 3 1 [device_D1]))
     = Some (NameError "json").
Proof. split; reflexivity. Qed.

(** C5, as stated, fails: two devices A and B on one worker, threshold 3,
    no retries, every read of both a transport failure, four passes.  The
    streak counts the failures of both, so the offline event is emitted in
    the second pass, at A's own second failure; B fails four times in a
    row, one more than the threshold, and no offline event is ever emitted
    for B. *)
Lemma per_device_run_counterexample :
  map summary
    (poll_cycles module_globals
       [always unreachable; always unreachable; always unreachable;
        always unreachable]
       (fresh 3 0 [device_A; device_B]))
  = [ ([[]; []], None, 2, None);
      ([[offline_event "A"]; []], None, 4, Some false);
      ([[]; []], None, 6, Some false);
      ([[]; []], None, 8, Some false) ].
Proof. vm_compute. reflexivity. Qed.

(** C10, as stated, fails for light: the third message of a device is the
    one of the third monitored parameter, light, and its [unique_id] is
    built from [illuminance], not from the parameter name. *)
Lemma light_identifier_counterexample :
  nth_error monitoredAttrs 2 = Some "light"
  /\ nth_error (map unique_id_of (config_device "A" "C4-7C-8D-00-00-0A")) 2
     = Some (Some (VStr "bt-mqtt-gateway/C4-7C-8D-00-00-0A/miflora_A_illuminance"))
  /\ format_discovery_id "C4-7C-8D-00-00-0A" ["A"; "light"]
     = "bt-mqtt-gateway/C4-7C-8D-00-00-0A/miflora_A_light".
Proof. repeat split; reflexivity. Qed.

(** The scenario of C4 in the namespace that binds [json]: the fifth pass
    yields the telemetry message followed by the online event and resets
    the streak. *)
Theorem single_device_scenario_with_json :
  map summary
    (poll_cycles globals_with_json
       [always unreachable; always unreachable; always unreachable;
        always unreachable; always healthy]
       (fresh 3 1 [device_D1]))
  = [ ([[]], None, 1, None);
      ([[]], None, 2, None);
      ([[offline_event "D1"]], None, 3, Some false);
      ([[]], None, 4, Some false);
      ([[telemetry "D1" healthy_data; online_event "D1"]], None, 0, Some true) ].
Proof. vm_compute. reflexivity. Qed.

(** The scenario of C2 in the namespace that binds [json]: A and B share
    the streak and the status, so the second pass repeats the first: A's
    success finds the streak at the threshold and B's failure finds the
    status Online. *)
Theorem two_device_scenario_with_json :
  map summary
    (poll_cycles globals_with_json [world_AB; world_AB]
       (fresh 1 0 [device_A; device_B]))
  = [ ([[telemetry "A" healthy_data; online_event "A"]; [offline_event "B"]],
       None, 1, Some false);
      ([[telemetry "A" healthy_data; online_event "A"]; [offline_event "B"]],
       None, 1, Some false) ].
Proof. vm_compute. reflexivity. Qed.

(** Witness of C3: device D1 with one retry, whose first attempt is a
    transport failure and whose second attempt reads all five values. *)
Lemma success_path_raises_NameError_witness :
  status_update_devices module_globals [device_D1]
    (after_one_failure healthy) (fresh 3 1 [device_D1])
  = {| yielded := [];
       raised := Some (NameError "json");
       final := record (debug_record "D1" (snd device_D1)) (fresh 3 1 [device_D1]) |}.
Proof.
  refine (proj2 (success_path_raises_NameError "D1" (snd device_D1) []
                   (after_one_failure healthy) (fresh 3 1 [device_D1]) 1
                   healthy_data _ _ _)).
  - simpl. lia.
  - intros i Hi. destruct i; [reflexivity|lia].
  - reflexivity.
Defined.

(** Witness of C8: device B never answers, so its guarded read ends in
    [DeviceTimeoutError]; the pass yields B's offline event and ends
    normally. *)
Lemma anticipated_failures_are_contained_witness :
  status_update_devices module_globals [device_B] world_AB (fresh 1 0 [device_B])
  = yield [offline_event "B"]
      (status_update_devices module_globals [] world_AB
         (snd (avail_offline "B"
                 (record (failure_record DeviceTimeoutError "B" (snd device_B))
                    (record (debug_record "B" (snd device_B))
                       (fresh 1 0 [device_B])))))).
Proof.
  refine (proj1 (anticipated_failures_are_contained module_globals "B"
                   (snd device_B) [] world_AB (fresh 1 0 [device_B])
                   (record (debug_record "B" (snd device_B)) (fresh 1 0 [device_B]))
                   DeviceTimeoutError _ _)).
  - reflexivity.
  - reflexivity.
Defined.


(** Witness of the success transition: the healthy sensor on a worker
    whose streak is 4 and whose status is Offline. *)
Lemma success_transition_when_json_is_bound_witness :
  update_device_state globals_with_json "D1" healthy
    (with_self (fun w => set_is_online (Some false) (set_error_count 4 w))
       (fresh 3 1 [device_D1]))
  = ( Ok [telemetry "D1" healthy_data; online_event "D1"],
      with_self after_success
        (with_self (fun w => set_is_online (Some false) (set_error_count 4 w))
           (fresh 3 1 [device_D1])) ).
Proof.
  refine (proj1 (success_transition_when_json_is_bound globals_with_json "D1"
                   healthy _ healthy_data _ _ _ _)); reflexivity.
Defined.

End Scenarios.

(** ** A pass as a sequence of tracker steps *)

Section Traces.

Context {base : BaseWorker}.

Lemma readings_fields poller values :
  readings poller = Returns values -> map fst values = monitoredAttrs.
Proof.
  unfold readings, and_then.
  destruct (clear_cache poller) as [[]|e0|]; try discriminate.
  destruct (parameter_value poller "temperature"); try discriminate.
  destruct (parameter_value poller "moisture"); try discriminate.
  destruct (parameter_value poller "light"); try discriminate.
  destruct (parameter_value poller "conductivity"); try discriminate.
  destruct (parameter_value poller ATTR_BATTERY); try discriminate.
  intros H. inversion H. reflexivity.
Qed.

(** A call returns only when every read returned and [json] resolves. *)
Lemma update_device_state_ok globals name poller s messages s' :
  update_device_state globals name poller s = (Ok messages, s') ->
  exists values,
    readings poller = Returns values
    /\ binds globals "json" = true
    /\ messages = telemetry name values ::
                  (if goes_online (self s) then [online_event name] else [])
    /\ s' = with_self after_success s.
Proof.
  intros H. destruct (binds globals "ATTR_BATTERY") eqn:Ha.
  - rewrite update_device_state_split in H by exact Ha.
    destruct (readings poller) as [values|e|] eqn:R; try discriminate.
    exists values.
    destruct (binds globals "MqttMessage") eqn:Hm;
      destruct (binds globals "json") eqn:Hj.
    + rewrite publish_with_json in H by assumption. inversion H. auto.
    + rewrite publish_without_json in H by assumption. discriminate.
    + unfold publish, bind, load_global in H. rewrite Hm in H. discriminate.
    + unfold publish, bind, load_global in H. rewrite Hm in H. discriminate.
  - exfalso. revert H.
    unfold update_device_state, bind, invoke, load_global. rewrite Ha.
    destruct (clear_cache poller) as [[]|e0|]; try discriminate.
    destruct (parameter_value poller "temperature"); try discriminate.
    destruct (parameter_value poller "moisture"); try discriminate.
    destruct (parameter_value poller "light"); try discriminate.
    destruct (parameter_value poller "conductivity"); discriminate.
Qed.

(** What [retry] returns was returned by one of the invocations, made in
    the state the loop started in when failed invocations change nothing. *)
Lemma retry_ok {A} (func : nat -> M A) et :
  (forall n s r s', func n s = (r, s') -> not_ok r -> s' = s) ->
  forall retries attempt s a s',
    retry func retries et attempt s = (Ok a, s') ->
    exists k, func k s = (Ok a, s').
Proof.
  intros Hf. induction retries as [|n IH]; intros attempt s a s'; simpl;
    destruct (func attempt s) as [[a0|e|] s1] eqn:E; intros H.
  - exists attempt. now rewrite E, H.
  - destruct (et e); discriminate.
  - discriminate.
  - exists attempt. now rewrite E, H.
  - assert (s1 = s) by (eapply Hf; [exact E|exact I]). subst s1.
    destruct (et e); [|discriminate]. eapply IH; exact H.
  - discriminate.
Qed.

Lemma guarded_update_returned globals name pollers s messages s' :
  guarded_update globals name pollers s = (Returned messages, s') ->
  exists k values,
    readings (pollers k) = Returns values
    /\ binds globals "json" = true
    /\ messages = telemetry name values ::
                  (if goes_online (self s) then [online_event name] else [])
    /\ s' = with_self after_success s.
Proof.
  unfold guarded_update, timeout.
  destruct (retry _ _ _ _ s) as [[a|e|] s1] eqn:E; intros H; inversion H; subst.
  apply retry_ok in E.
  - destruct E as [k E]. exists k. now apply update_device_state_ok in E.
  - intros n s0 r s0'. apply update_device_state_failure_state.
Qed.

(** Every item of a pass is the answer of one tracker step, taken in the
    order of the device table; an exception ends the pass before the item
    of the device it came from. *)
Lemma status_update_devices_trace globals items world :
  forall s,
    tracker_trace globals (self s)
      (firstn (List.length (yielded (status_update_devices globals items world s)))
              (map fst items))
      (yielded (status_update_devices globals items world s))
      (self (final (status_update_devices globals items world s)))
    /\ match raised (status_update_devices globals items world s) with
       | None =>
           List.length (yielded (status_update_devices globals items world s))
           = List.length items
       | Some _ =>
           (List.length (yielded (status_update_devices globals items world s))
            < List.length items)%nat
       end.
Proof.
  induction items as [|[name data] rest IH]; intros s.
  - simpl. split; [constructor|reflexivity].
  - destruct (guarded_update globals name (world name)
                (record (debug_record name data) s)) as [[messages|e] s2] eqn:E.
    + rewrite (step_returned _ _ _ _ _ _ _ _ E).
      destruct (guarded_update_returned _ _ _ _ _ _ E)
        as [k [values [R [Hj [Hm Hs]]]]].
      destruct (IH s2) as [Ht Hl]. subst s2 messages. simpl in Ht, Hl |- *.
      split.
      * econstructor; [|exact Ht].
        apply completed_read; [exact Hj|exact (readings_fields _ _ R)].
      * destruct (raised _); lia.
    + pose proof (guarded_update_failure_state _ _ _ _ _ _ E). subst s2.
      destruct (anticipated e) eqn:He.
      * rewrite (step_handled _ _ _ _ _ _ _ _ E He).
        set (s3 := record (failure_record e name data)
                     (record (debug_record name data) s)).
        destruct (IH (snd (avail_offline name s3))) as [Ht Hl].
        rewrite avail_offline_eq in Ht, Hl |- *. simpl in Ht, Hl |- *.
        split.
        -- econstructor; [|exact Ht]. apply handled_failure.
        -- destruct (raised _); lia.
      * rewrite (step_propagated _ _ _ _ _ _ _ _ E He). simpl.
        split; [constructor|lia].
Qed.

Lemma tracker_trace_app globals w1 names1 items1 w2 :
  tracker_trace globals w1 names1 items1 w2 ->
  forall names2 items2 w3,
    tracker_trace globals w2 names2 items2 w3 ->
    tracker_trace globals w1 (names1 ++ names2)%list (items1 ++ items2)%list w3.
Proof.
  induction 1; intros names2 items2 w3 H2; simpl; [exact H2|].
  econstructor; [eassumption|]. now apply IHtracker_trace.
Qed.

Lemma status_update_trace globals world s :
  tracker_trace globals (self s)
    (firstn (List.length (yielded (status_update globals world s)))
            (map fst (devices (self s))))
    (yielded (status_update globals world s))
    (self (final (status_update globals world s)))
  /\ match raised (status_update globals world s) with
     | None =>
         List.length (yielded (status_update globals world s))
         = List.length (devices (self s))
     | Some _ =>
         (List.length (yielded (status_update globals world s))
          < List.length (devices (self s)))%nat
     end.
Proof.
  exact (status_update_devices_trace globals (devices (self s)) world
           (emit LogInfo "Updating %d %s devices"
              [ArgInt (Z.of_nat (List.length (devices (self s))));
               ArgStr repr_self] s)).
Qed.

(** Successive passes are one long trace. *)
Lemma poll_cycles_trace globals worlds :
  forall s, exists names,
    tracker_trace globals (self s) names
      (List.concat (map yielded (poll_cycles globals worlds s)))
      (self (poll_cycles_final globals worlds s)).
Proof.
  induction worlds as [|world later IH]; intros s.
  - exists []. constructor.
  - simpl. destruct (IH (final (status_update globals world s))) as [names Hn].
    eexists. eapply tracker_trace_app; [|exact Hn].
    exact (proj1 (status_update_trace globals world s)).
Qed.

Lemma tracker_step_frame globals w name item w' :
  tracker_step globals w name item w' ->
  errors_to_offline w' = errors_to_offline w
  /\ per_device_timeout w' = per_device_timeout w
  /\ update_retries w' = update_retries w
  /\ devices w' = devices w.
Proof.
  intros H. destruct H; unfold after_failure, after_success.
  - destruct (goes_offline w); repeat split.
  - destruct (goes_online w); repeat split.
Qed.

Lemma tracker_trace_frame globals w names items w' :
  tracker_trace globals w names items w' ->
  errors_to_offline w' = errors_to_offline w
  /\ per_device_timeout w' = per_device_timeout w
  /\ update_retries w' = update_retries w
  /\ devices w' = devices w.
Proof.
  induction 1 as [|w w1 w2 name item names items Hs Ht IH]; [repeat split|].
  destruct (tracker_step_frame _ _ _ _ _ Hs) as [A [B [C D]]].
  destruct IH as [A' [B' [C' D']]]. repeat split; congruence.
Qed.

End Traces.

(** ** What every pass keeps *)

Section Invariants.

Context {base : BaseWorker}.

Lemma changes_only_app status first second :
  changes_only status (first ++ second)%list =
  changes_only status first && changes_only (status_after status first) second.
Proof.
  revert status. induction first as [|m rest IH]; intros status; [reflexivity|].
  simpl. destruct (availability_of m); rewrite IH; [|reflexivity].
  now rewrite andb_assoc.
Qed.

Lemma status_after_app status first second :
  status_after status (first ++ second)%list =
  status_after (status_after status first) second.
Proof.
  revert status. induction first as [|m rest IH]; intros status; [reflexivity|].
  simpl. destruct (availability_of m); apply IH.
Qed.

Lemma is_not_false_inv status : is_not status false = false -> status = Some false.
Proof. destruct status as [[|]|]; simpl; congruence. Qed.

Lemma tracker_step_changes globals w name item w' :
  tracker_step globals w name item w' ->
  1 <= errors_to_offline w ->
  consistent w ->
  changes_only (is_online w) item = true
  /\ status_after (is_online w) item = is_online w'
  /\ consistent w'.
Proof.
  intros Hstep Ht [Hpos Hoff]. destruct Hstep as [|values Hj Hv].
  - unfold after_failure, consistent.
    destruct (goes_offline w) eqn:G; unfold goes_offline in G.
    + apply andb_prop in G. destruct G as [_ Hn].
      cbn. rewrite Hn. repeat split; try reflexivity; lia.
    + cbn. repeat split; try reflexivity; try lia.
      intros Hle. apply andb_false_iff in G. destruct G as [G|G].
      * apply Z.leb_gt in G. lia.
      * now apply is_not_false_inv.
  - unfold after_success, consistent.
    destruct (goes_online w) eqn:G; unfold goes_online in G.
    + assert (Hn : is_not (is_online w) true = true).
      { apply orb_prop in G. destruct G as [G|G]; [|exact G].
        apply Z.leb_le in G. now rewrite (Hoff G). }
      cbn. rewrite Hn. repeat split; try reflexivity; lia.
    + cbn. repeat split; try reflexivity; lia.
Qed.

Lemma tracker_trace_changes globals w names items w' :
  tracker_trace globals w names items w' ->
  1 <= errors_to_offline w ->
  consistent w ->
  changes_only (is_online w) (List.concat items) = true
  /\ status_after (is_online w) (List.concat items) = is_online w'
  /\ consistent w'.
Proof.
  induction 1 as [|w w1 w2 name item names items Hs Ht IH]; intros Hth Hc.
  - repeat split; try reflexivity; apply Hc.
  - destruct (tracker_step_changes _ _ _ _ _ Hs Hth Hc) as [A [B C]].
    destruct (tracker_step_frame _ _ _ _ _ Hs) as [F _].
    destruct (IH ltac:(lia) C) as [A' [B' C']].
    cbn [List.concat]. rewrite changes_only_app, status_after_app, A, B.
    cbn [andb]. split; [exact A'|split; [exact B'|exact C']].
Qed.

(** In the module as written only failures are handled. *)
Lemma module_trace_silent_when_offline w names items w' :
  tracker_trace module_globals w names items w' ->
  is_online w = Some false ->
  List.concat items = [] /\ is_online w' = Some false.
Proof.
  induction 1 as [|w w1 w2 name item names items Hs Ht IH]; intros Hoff.
  - split; [reflexivity|exact Hoff].
  - destruct Hs as [|values Hj Hv]; [|discriminate Hj].
    assert (G : goes_offline w = false).
    { unfold goes_offline. rewrite Hoff. apply andb_false_r. }
    rewrite G in *. cbn [List.concat app]. apply IH.
    unfold after_failure. now rewrite G.
Qed.

Lemma module_trace_failures w names items w' :
  tracker_trace module_globals w names items w' ->
  forallb is_offline_message (List.concat items) = true
  /\ (List.length (List.concat items) <= 1)%nat
  /\ error_count w' = error_count w + Z.of_nat (List.length items)
  /\ (is_online w' = is_online w \/ is_online w' = Some false).
Proof.
  induction 1 as [|w w1 w2 name item names items Hs Ht IH].
  - simpl. repeat split; try lia. now left.
  - destruct IH as [A [B [C D]]].
    destruct Hs as [|values Hj Hv]; [|discriminate Hj].
    cbn [List.concat List.length]. rewrite Nat2Z.inj_succ.
    unfold after_failure in *. destruct (goes_offline w) eqn:G.
    + destruct (module_trace_silent_when_offline _ _ _ _ Ht eq_refl) as [E1 E2].
      rewrite E1. cbn in C |- *. repeat split; try reflexivity; try lia.
      now right.
    + cbn in C, D |- *. repeat split; try assumption; lia.
Qed.

End Invariants.

(** ** Properties of the passes *)

Section PassProperties.

Context {base : BaseWorker}.

(** X2: in any namespace and for any behaviour of the sensors, the items a
    pass yields are the answers of tracker steps taken in the order of the
    device table, one item per polled device: each item is what
    [avail_offline] returned for a handled failure, or the telemetry message
    of the five fields followed by at most the online event for a read that
    completed; the worker the pass leaves is the one these steps lead to.  A
    pass that ends normally has yielded one item for every device of the
    table; a pass ended by an exception has yielded fewer. *)
Theorem pass_is_a_sequence_of_tracker_steps :
  forall (globals : list string) (world : string -> nat -> MiFloraPoller)
         (s : state),
    tracker_trace globals (self s)
      (firstn (List.length (yielded (status_update globals world s)))
              (map fst (devices (self s))))
      (yielded (status_update globals world s))
      (self (final (status_update globals world s)))
    /\ match raised (status_update globals world s) with
       | None =>
           List.length (yielded (status_update globals world s))
           = List.length (devices (self s))
       | Some _ =>
           (List.length (yielded (status_update globals world s))
            < List.length (devices (self s)))%nat
       end.
Proof. intros globals world s. apply status_update_trace. Qed.

(** X3: with a threshold of at least 1, on a worker whose streak is not
    negative and whose status is Offline whenever the streak has reached the
    threshold (a new worker is one), every availability message yielded over
    any number of passes, read in order, announces a status different from
    the one in force before it, and the status the worker ends with is the
    last one announced.  The worker stays such a worker. *)
Theorem availability_messages_announce_changes :
  forall (globals : list string)
         (worlds : list (string -> nat -> MiFloraPoller)) (s : state),
    1 <= errors_to_offline (self s) ->
    consistent (self s) ->
    changes_only (is_online (self s))
      (all_messages (poll_cycles globals worlds s)) = true
    /\ status_after (is_online (self s))
         (all_messages (poll_cycles globals worlds s))
       = is_online (self (poll_cycles_final globals worlds s))
    /\ consistent (self (poll_cycles_final globals worlds s)).
Proof.
  intros globals worlds s Ht Hc.
  destruct (poll_cycles_trace globals worlds s) as [names Hn].
  exact (tracker_trace_changes _ _ _ _ _ Hn Ht Hc).
Qed.

(** X4: passes never change the threshold, the deadline, the retry count or
    the device table, in any namespace and whatever the sensors do. *)
Theorem passes_keep_the_configuration :
  forall (globals : list string)
         (worlds : list (string -> nat -> MiFloraPoller)) (s : state),
    errors_to_offline (self (poll_cycles_final globals worlds s))
      = errors_to_offline (self s)
    /\ per_device_timeout (self (poll_cycles_final globals worlds s))
       = per_device_timeout (self s)
    /\ update_retries (self (poll_cycles_final globals worlds s))
       = update_retries (self s)
    /\ devices (self (poll_cycles_final globals worlds s)) = devices (self s).
Proof.
  intros globals worlds s.
  destruct (poll_cycles_trace globals worlds s) as [names Hn].
  exact (tracker_trace_frame _ _ _ _ _ Hn).
Qed.

(** X5: the module as written, over any number of passes and whatever the
    sensors do: every message it yields is an offline event and there is at
    most one in all; the streak grows by one per yielded item and is never
    reset; the status is never set to Online. *)
Theorem module_as_written_only_announces_offline :
  forall (worlds : list (string -> nat -> MiFloraPoller)) (s : state),
    forallb is_offline_message (all_messages (poll_cycles module_globals worlds s))
      = true
    /\ (List.length (all_messages (poll_cycles module_globals worlds s)) <= 1)%nat
    /\ error_count (self (poll_cycles_final module_globals worlds s))
       = error_count (self s)
         + Z.of_nat (List.length
                       (List.concat (map yielded (poll_cycles module_globals worlds s))))
    /\ (is_online (self (poll_cycles_final module_globals worlds s))
          = is_online (self s)
        \/ is_online (self (poll_cycles_final module_globals worlds s))
          = Some false).
Proof.
  intros worlds s.
  destruct (poll_cycles_trace module_globals worlds s) as [names Hn].
  exact (module_trace_failures _ _ _ _ Hn).
Qed.

(** X6: an exception of any other class raised by a sensor read is neither
    retried nor handled: also after retried transport failures, nothing is
    yielded for the device, the exception leaves the pass, the remaining
    devices are not polled, and the worker is as it was. *)
Theorem other_exception_ends_the_pass :
  forall (name : string) (data : device_data)
         (rest : list (string * device_data))
         (world : string -> nat -> MiFloraPoller) (s : state) (k : nat)
         (e : exn),
    (k <= update_retries (self s))%nat ->
    (forall i, (i < k)%nat ->
       readings (world name i) = Raises BluetoothBackendException) ->
    readings (world name k) = Raises e ->
    anticipated e = false ->
    status_update_devices module_globals ((name, data) :: rest) world s =
    {| yielded := [];
       raised := Some e;
       final := record (debug_record name data) s |}.
Proof.
  intros name data rest world s k e Hk Hfail Hlast He.
  apply step_propagated; [|exact He].
  rewrite (guarded_update_at module_globals name (world name) _ k);
    [|reflexivity|exact Hk|exact Hfail|].
  - unfold timeout. rewrite update_device_state_split by reflexivity.
    now rewrite Hlast.
  - rewrite Hlast. intros H. inversion H. subst e. discriminate He.
Qed.

(** X7: a call of [update_device_state] that does not return, in any
    namespace, leaves the worker and the log exactly as they were: the
    streak and the status are written only after every read and the building
    of the message succeeded.  The same holds for the retried read under its
    deadline when it ends in an exception. *)
Theorem failed_read_changes_nothing :
  forall (globals : list string) (name : string) (poller : MiFloraPoller)
         (pollers : nat -> MiFloraPoller) (s : state),
    (not_ok (fst (update_device_state globals name poller s)) ->
     snd (update_device_state globals name poller s) = s)
    /\ (forall e s',
          guarded_update globals name pollers s = (Raised e, s') -> s' = s).
Proof.
  intros globals name poller pollers s. split.
  - destruct (update_device_state globals name poller s) as [r s'] eqn:E.
    simpl. intros Hr. exact (update_device_state_failure_state _ _ _ _ _ _ E Hr).
  - intros e s'. apply guarded_update_failure_state.
Qed.

(** X8: where [json] resolves, transport failures that were retried leave
    no mark: when [k] attempts, [k] at most [update_retries], raise
    [BluetoothBackendException] and the next one reads all five values, the
    guarded read returns what that attempt returns, and the worker is the
    one a success leaves, with the streak at 0. *)
Theorem retried_failures_are_not_counted :
  forall (globals : list string) (name : string) (pollers : nat -> MiFloraPoller)
         (s : state) (k : nat) (values : list (string * number)),
    binds globals "ATTR_BATTERY" = true ->
    binds globals "MqttMessage" = true ->
    binds globals "json" = true ->
    (k <= update_retries (self s))%nat ->
    (forall i, (i < k)%nat ->
       readings (pollers i) = Raises BluetoothBackendException) ->
    readings (pollers k) = Returns values ->
    fst (guarded_update globals name pollers s)
      = Returned (telemetry name values ::
                  if goes_online (self s) then [online_event name] else [])
    /\ self (snd (guarded_update globals name pollers s)) = after_success (self s)
    /\ error_count (self (snd (guarded_update globals name pollers s))) = 0.
Proof.
  intros globals name pollers s k values Ha Hm Hj Hk Hfail Hok.
  rewrite (guarded_update_at globals name pollers s k);
    [|exact Ha|exact Hk|exact Hfail|now rewrite Hok].
  unfold timeout. rewrite update_device_state_split by exact Ha.
  rewrite Hok, publish_with_json by assumption. simpl.
  repeat split.
Qed.

(** X9: a poll whose [update_retries + 1] attempts all raise
    [BluetoothBackendException] counts as one failure: the pass over that
    one device ends normally, yields the single item [avail_offline]
    returns, adds exactly one to the streak whatever the number of retries,
    and logs the transport-error record with the class name. *)
Theorem exhausted_retries_count_once :
  forall (name : string) (data : device_data)
         (world : string -> nat -> MiFloraPoller) (s : state),
    (forall i, (i <= update_retries (self s))%nat ->
       readings (world name i) = Raises BluetoothBackendException) ->
    yielded (status_update_devices module_globals [(name, data)] world s)
      = [if goes_offline (self s) then [offline_event name] else []]
    /\ raised (status_update_devices module_globals [(name, data)] world s) = None
    /\ self (final (status_update_devices module_globals [(name, data)] world s))
       = after_failure (self s)
    /\ error_count
         (self (final (status_update_devices module_globals [(name, data)] world s)))
       = error_count (self s) + 1
    /\ In (mkLog LogException "Error during update of %s device '%s' (%s): %s"
             [ArgStr repr_self; ArgStr name; ArgStr (mac data);
              ArgStr "BluetoothBackendException"])
          (logged (final (status_update_devices module_globals [(name, data)] world s))).
Proof.
  intros name data world s Hfail.
  assert (E : guarded_update module_globals name (world name)
                (record (debug_record name data) s)
              = (Raised BluetoothBackendException,
                 record (debug_record name data) s)).
  { apply guarded_update_exhausted; [reflexivity|exact Hfail]. }
  rewrite (step_handled _ _ _ _ _ _ _ _ E eq_refl).
  rewrite avail_offline_eq. simpl.
  repeat split.
  - unfold after_failure. destruct (goes_offline (self s)); simpl; lia.
  - apply in_or_app. left. apply in_or_app. right. left. reflexivity.
Qed.

End PassProperties.

(** ** Passes over healthy devices *)

Section Healthy.

Context {base : BaseWorker}.

Lemma guarded_update_first_success globals name pollers s values :
  binds globals "ATTR_BATTERY" = true ->
  binds globals "MqttMessage" = true ->
  binds globals "json" = true ->
  readings (pollers 0%nat) = Returns values ->
  guarded_update globals name pollers s =
    ( Returned (telemetry name values ::
                if goes_online (self s) then [online_event name] else []),
      with_self after_success s ).
Proof.
  intros Ha Hm Hj Hok.
  rewrite (guarded_update_at globals name pollers s 0);
    [|exact Ha|lia|intros i Hi; lia|now rewrite Hok].
  unfold timeout. rewrite update_device_state_split by exact Ha.
  now rewrite Hok, publish_with_json by assumption.
Qed.

Lemma steady_devices globals values world :
  binds globals "ATTR_BATTERY" = true ->
  binds globals "MqttMessage" = true ->
  binds globals "json" = true ->
  (forall name, readings (world name 0%nat) = Returns (values name)) ->
  forall items s,
    1 <= errors_to_offline (self s) ->
    error_count (self s) < errors_to_offline (self s) ->
    is_online (self s) = Some true ->
    yielded (status_update_devices globals items world s)
      = map (fun item => [telemetry (fst item) (values (fst item))]) items
    /\ raised (status_update_devices globals items world s) = None
    /\ is_online (self (final (status_update_devices globals items world s)))
       = Some true
    /\ error_count (self (final (status_update_devices globals items world s)))
       = (match items with [] => error_count (self s) | _ => 0 end).
Proof.
  intros Ha Hm Hj Hw. induction items as [|[name data] rest IH]; intros s Ht Hc Ho.
  - simpl. repeat split. exact Ho.
  - assert (G : goes_online (self s) = false).
    { unfold goes_online. rewrite Ho. simpl. rewrite orb_false_r.
      apply Z.leb_gt. exact Hc. }
    rewrite (step_returned globals name data rest world s _ _
               (guarded_update_first_success globals name (world name) _ _
                  Ha Hm Hj (Hw name))).
    cbn [self record]. rewrite G.
    destruct (IH (with_self after_success (record (debug_record name data) s)))
      as [A [B [C D]]].
    + simpl. unfold after_success. rewrite G. simpl. exact Ht.
    + simpl. unfold after_success. rewrite G. simpl. lia.
    + simpl. unfold after_success. rewrite G. simpl. exact Ho.
    + cbn [yielded raised final yield map fst]. rewrite A, B, C, D.
      repeat split. destruct rest; [|reflexivity].
      cbn [self with_self record]. unfold after_success. now rewrite G.
Qed.

(** X13: where [json] resolves, a worker that is Online with its streak
    below a threshold of at least 1 and whose devices all answer is in a
    steady state: a pass yields exactly one item per device, holding that
    device's telemetry message and no availability message, ends normally,
    and leaves the status Online and the streak at 0. *)
Theorem healthy_pass_of_an_online_worker :
  forall (globals : list string) (values : string -> list (string * number))
         (world : string -> nat -> MiFloraPoller) (s : state),
    binds globals "ATTR_BATTERY" = true ->
    binds globals "MqttMessage" = true ->
    binds globals "json" = true ->
    (forall name, readings (world name 0%nat) = Returns (values name)) ->
    1 <= errors_to_offline (self s) ->
    error_count (self s) < errors_to_offline (self s) ->
    is_online (self s) = Some true ->
    yielded (status_update globals world s)
      = map (fun item => [telemetry (fst item) (values (fst item))])
            (devices (self s))
    /\ raised (status_update globals world s) = None
    /\ is_online (self (final (status_update globals world s))) = Some true
    /\ (devices (self s) <> [] ->
        error_count (self (final (status_update globals world s))) = 0).
Proof.
  intros globals values world s Ha Hm Hj Hw Ht Hc Ho.
  destruct (steady_devices globals values world Ha Hm Hj Hw (devices (self s))
              (emit LogInfo "Updating %d %s devices"
                 [ArgInt (Z.of_nat (List.length (devices (self s))));
                  ArgStr repr_self] s) Ht Hc Ho) as [A [B [C D]]].
  unfold status_update. cbn [self emit] in *.
  split; [exact A|]. split; [exact B|]. split; [exact C|].
  intros Hne. rewrite D. destruct (devices (self s)); [now elim Hne|reflexivity].
Qed.

(** X14: where [json] resolves and the threshold is at least 1, the first
    pass of a worker that is not yet Online over devices that all answer
    announces only the first device of the table online: the first item is
    that device's telemetry message followed by its online event, and every
    later item is the telemetry message alone, because the status the first
    device set is the status of all. *)
Theorem only_the_first_device_is_announced_online :
  forall (globals : list string) (values : string -> list (string * number))
         (world : string -> nat -> MiFloraPoller) (s : state)
         (name : string) (data : device_data)
         (rest : list (string * device_data)),
    binds globals "ATTR_BATTERY" = true ->
    binds globals "MqttMessage" = true ->
    binds globals "json" = true ->
    (forall name', readings (world name' 0%nat) = Returns (values name')) ->
    1 <= errors_to_offline (self s) ->
    is_not (is_online (self s)) true = true ->
    yielded (status_update_devices globals ((name, data) :: rest) world s)
      = [telemetry name (values name); online_event name]
        :: map (fun item => [telemetry (fst item) (values (fst item))]) rest
    /\ raised (status_update_devices globals ((name, data) :: rest) world s) = None
    /\ is_online
         (self (final (status_update_devices globals ((name, data) :: rest) world s)))
       = Some true
    /\ error_count
         (self (final (status_update_devices globals ((name, data) :: rest) world s)))
       = 0.
Proof.
  intros globals values world s name data rest Ha Hm Hj Hw Ht Hn.
  assert (G : goes_online (self s) = true).
  { unfold goes_online. rewrite Hn. apply orb_true_r. }
  rewrite (step_returned globals name data rest world s _ _
             (guarded_update_first_success globals name (world name) _ _
                Ha Hm Hj (Hw name))).
  cbn [self record]. rewrite G.
  destruct (steady_devices globals values world Ha Hm Hj Hw rest
              (with_self after_success (record (debug_record name data) s)))
    as [A [B [C D]]].
  - simpl. unfold after_success. rewrite G. simpl. exact Ht.
  - simpl. unfold after_success. rewrite G. simpl. lia.
  - simpl. unfold after_success. now rewrite G.
  - cbn [yielded raised final yield]. rewrite A, B, C, D.
    repeat split. destruct rest; [|reflexivity].
    cbn [self with_self record]. unfold after_success. now rewrite G.
Qed.

End Healthy.

(** ** Start-up and discovery: [_setup], [config], [config_device] *)

Section Startup.

Context {base : BaseWorker}.

Lemma flat_map_map {A B C} (f : B -> list C) (g : A -> B) (l : list A) :
  flat_map f (map g l) = flat_map (fun a => f (g a)) l.
Proof. induction l as [|a l IH]; [reflexivity|]. simpl. now rewrite IH. Qed.

Lemma setup_logs (configured : list (string * string)) :
  forall s,
    self (fold_left
            (fun acc item =>
               emit LogDebug "Adding %s device '%s' (%s)"
                 [ArgStr repr_self; ArgStr (fst item); ArgStr (snd item)] acc)
            configured s) = self s
    /\ logged (fold_left
                 (fun acc item =>
                    emit LogDebug "Adding %s device '%s' (%s)"
                      [ArgStr repr_self; ArgStr (fst item); ArgStr (snd item)] acc)
                 configured s)
       = (logged s ++
          map (fun item =>
                 mkLog LogDebug "Adding %s device '%s' (%s)"
                   [ArgStr repr_self; ArgStr (fst item); ArgStr (snd item)])
              configured)%list.
Proof.
  induction configured as [|item rest IH]; intros s.
  - simpl. now rewrite app_nil_r.
  - simpl. destruct (IH (emit LogDebug "Adding %s device '%s' (%s)"
                           [ArgStr repr_self; ArgStr (fst item); ArgStr (snd item)] s))
      as [A B].
    rewrite A, B. simpl. now rewrite <- app_assoc.
Qed.

(** X10: for any worker and whatever availability topic it is given,
    [config] returns six messages per device of the table, device after
    device in table order (none for an empty table), under the discovery
    topics of each device's address, name and parameter; every key of every
    payload is one of unique_id, state_topic, name, device, device_class,
    unit_of_measurement and icon, so the availability topic is announced in
    none of them. *)
Theorem config_covers_every_device :
  forall (availability_topic : string) (w : MifloraWorker),
    List.length (config availability_topic w) = (6 * List.length (devices w))%nat
    /\ map config_name (config availability_topic w) =
       flat_map
         (fun item =>
            map (fun attr => format_discovery_topic (mac (snd item)) [fst item; attr])
                (monitoredAttrs ++ [ATTR_LOW_BATTERY]))
         (devices w)
    /\ forallb
         (fun m => forallb (fun k => existsb (String.eqb k) payload_keys)
                           (map fst (config_payload m)))
         (config availability_topic w) = true.
Proof.
  intros availability_topic w. unfold config.
  induction (devices w) as [|[name data] rest [IH1 [IH2 IH3]]].
  - repeat split.
  - cbn [flat_map fst snd]. rewrite length_app, map_app, forallb_app, IH1, IH2, IH3.
    repeat split. simpl. lia.
Qed.

Lemma map_constant {A B} (b : B) (l : list A) :
  map (fun _ => b) l = repeat b (List.length l).
Proof. induction l as [|a l IH]; [reflexivity|]. simpl. now rewrite IH. Qed.

(** X11: [_setup] turns the configured table of names and addresses into
    the device table, entry by entry in the same order; it builds one poller
    per device, with that device's address, the BluepyBackend and the
    worker's adapter ([hci0] when it has none); it logs the record with the
    number of devices and then one record per device with its name and
    address, and nothing else; it leaves the streak, the status, the
    threshold, the deadline and the retry count alone; and [config] on the
    worker it leaves returns the messages of [config_device] for each
    configured name and address in order. *)
Theorem setup_builds_the_device_table :
  forall (adapter : option string) (configured : list (string * string))
         (s : state) (availability_topic : string),
    devices (self (snd (_setup adapter configured s)))
      = map (fun item => (fst item, mkDevice (snd item))) configured
    /\ map (fun built => (fst built, with_mac (snd built)))
           (fst (_setup adapter configured s)) = configured
    /\ map (fun built => with_backend (snd built)) (fst (_setup adapter configured s))
       = repeat "BluepyBackend" (List.length configured)
    /\ map (fun built => with_adapter (snd built)) (fst (_setup adapter configured s))
       = repeat (match adapter with Some a => a | None => "hci0" end)
                (List.length configured)
    /\ logged (snd (_setup adapter configured s))
       = (logged s ++
          mkLog LogInfo "Adding %d %s devices"
            [ArgInt (Z.of_nat (List.length configured)); ArgStr repr_self]
          :: map (fun item =>
                    mkLog LogDebug "Adding %s device '%s' (%s)"
                      [ArgStr repr_self; ArgStr (fst item); ArgStr (snd item)])
                 configured)%list
    /\ error_count (self (snd (_setup adapter configured s))) = error_count (self s)
    /\ is_online (self (snd (_setup adapter configured s))) = is_online (self s)
    /\ errors_to_offline (self (snd (_setup adapter configured s)))
       = errors_to_offline (self s)
    /\ per_device_timeout (self (snd (_setup adapter configured s)))
       = per_device_timeout (self s)
    /\ update_retries (self (snd (_setup adapter configured s)))
       = update_retries (self s)
    /\ config availability_topic (self (snd (_setup adapter configured s)))
       = flat_map (fun item => config_device (fst item) (snd item)) configured.
Proof.
  intros adapter configured s availability_topic. unfold _setup, config.
  cbn [fst snd self with_self set_devices devices error_count is_online
       errors_to_offline per_device_timeout update_retries logged].
  destruct (setup_logs configured
              (emit LogInfo "Adding %d %s devices"
                 [ArgInt (Z.of_nat (List.length configured)); ArgStr repr_self] s))
    as [A B].
  rewrite A, B. cbn [emit self logged].
  split; [reflexivity|].
  split.
  { rewrite map_map. cbn [fst snd with_mac].
    rewrite <- (map_id configured) at 2. apply map_ext. now intros [name address]. }
  split; [rewrite map_map; cbn [snd with_backend]; apply map_constant|].
  split; [rewrite map_map; cbn [snd with_adapter]; apply map_constant|].
  split; [now rewrite <- app_assoc|].
  repeat (split; [reflexivity|]).
  now rewrite flat_map_map.
Qed.

(** X12: the six payloads of a device.  Each names the state topic of its
    own parameter under the prefixed topic (light under [light], although
    its identifier says illuminance); all six carry the same [device]
    mapping; the units are degrees Celsius, percent, lux, microsiemens per
    centimetre and percent, the binary low-battery message having none; and
    no key occurs twice in a payload. *)
Theorem config_device_payloads :
  forall (name mac : string),
    map (payload_entry "state_topic") (config_device name mac) =
      map (fun attr => Some (VStr (format_prefixed_topic [name; attr])))
          (monitoredAttrs ++ [ATTR_LOW_BATTERY])
    /\ map (payload_entry "device") (config_device name mac) =
       repeat (Some (device_dict name mac)) 6
    /\ map (payload_entry "unit_of_measurement") (config_device name mac) =
       [ Some (VStr "°C"); Some (VStr "%"); Some (VStr "lux");
         Some (VStr "µS/cm"); Some (VStr "%"); None ]
    /\ map (payload_entry "device_class") (config_device name mac) =
       [ Some (VStr "temperature"); None; Some (VStr "illuminance"); None;
         Some (VStr "battery"); Some (VStr "battery") ]
    /\ Forall (fun m => NoDup (map fst (config_payload m))) (config_device name mac).
Proof.
  intros name mac. repeat split; try reflexivity.
  repeat (constructor;
          [repeat (constructor; [simpl; intuition discriminate|]); constructor|]).
  constructor.
Qed.

End Startup.

(** ** The properties at concrete inputs *)

Section Witnesses.

Existing Instance sample_base.

(** Witness of X3: a new worker with threshold 3 and one device, four
    failing passes and a fifth, succeeding one, where [json] resolves. *)
Lemma availability_messages_announce_changes_witness :
  changes_only (is_online (self (fresh 3 1 [device_D1])))
    (all_messages
       (poll_cycles globals_with_json
          [always unreachable; always unreachable; always unreachable;
           always unreachable; always healthy]
          (fresh 3 1 [device_D1]))) = true.
Proof.
  refine (proj1 (availability_messages_announce_changes globals_with_json
                   [always unreachable; always unreachable; always unreachable;
                    always unreachable; always healthy]
                   (fresh 3 1 [device_D1]) _ _)).
  - simpl. lia.
  - split; simpl; lia.
Defined.

(** Witness of X6: two devices, one retry; the first device fails once at
    the transport and then raises a ValueError; the second is not polled. *)
Lemma other_exception_ends_the_pass_witness :
  status_update_devices module_globals [device_A; device_B]
    (after_one_failure broken) (fresh 3 1 [device_A; device_B])
  = {| yielded := [];
       raised := Some (OtherException "ValueError");
       final := record (debug_record "A" (snd device_A))
                  (fresh 3 1 [device_A; device_B]) |}.
Proof.
  refine (other_exception_ends_the_pass "A" (snd device_A) [device_B]
            (after_one_failure broken) (fresh 3 1 [device_A; device_B]) 1
            (OtherException "ValueError") _ _ _ _).
  - simpl. lia.
  - intros i Hi. destruct i; [reflexivity|lia].
  - reflexivity.
  - reflexivity.
Defined.

(** Witness of X7: the healthy sensor in the module as written, where the
    call ends in [NameError]. *)
Lemma failed_read_changes_nothing_witness :
  snd (update_device_state module_globals "D1" healthy (fresh 3 1 [device_D1]))
  = fresh 3 1 [device_D1].
Proof.
  refine (proj1 (failed_read_changes_nothing module_globals "D1" healthy
                   (always healthy "D1") (fresh 3 1 [device_D1])) _).
  simpl. exact I.
Defined.

(** Witness of X8: one retried transport failure before the healthy read,
    where [json] resolves. *)
Lemma retried_failures_are_not_counted_witness :
  fst (guarded_update globals_with_json "D1" (after_one_failure healthy "D1")
         (fresh 3 1 [device_D1]))
  = Returned [telemetry "D1" healthy_data; online_event "D1"].
Proof.
  refine (proj1 (retried_failures_are_not_counted globals_with_json "D1"
                   (after_one_failure healthy "D1") (fresh 3 1 [device_D1]) 1
                   healthy_data _ _ _ _ _ _)).
  - reflexivity.
  - reflexivity.
  - reflexivity.
  - simpl. lia.
  - intros i Hi. destruct i; [reflexivity|lia].
  - reflexivity.
Defined.

(** Witness of X9: threshold 1 and two retries, every attempt a transport
    failure: one offline event and a streak of 1, not 3. *)
Lemma exhausted_retries_count_once_witness :
  yielded (status_update_devices module_globals [device_D1] (always unreachable)
             (fresh 1 2 [device_D1]))
  = [[offline_event "D1"]].
Proof.
  refine (proj1 (exhausted_retries_count_once "D1" (snd device_D1)
                   (always unreachable) (fresh 1 2 [device_D1]) _)).
  intros i Hi. reflexivity.
Defined.

(** Witness of X13: two healthy devices on a worker that is Online with
    streak 0 and threshold 3. *)
Lemma healthy_pass_of_an_online_worker_witness :
  yielded (status_update globals_with_json (always healthy)
             (with_self (set_is_online (Some true))
                (fresh 3 1 [device_A; device_B])))
  = [[telemetry "A" healthy_data]; [telemetry "B" healthy_data]].
Proof.
  refine (proj1 (healthy_pass_of_an_online_worker globals_with_json
                   (fun _ => healthy_data) (always healthy)
                   (with_self (set_is_online (Some true))
                      (fresh 3 1 [device_A; device_B]))
                   _ _ _ _ _ _ _)).
  - reflexivity.
  - reflexivity.
  - reflexivity.
  - intros name. reflexivity.
  - simpl. lia.
  - simpl. lia.
  - reflexivity.
Defined.

(** Witness of X14: the first pass of a new worker over two healthy
    devices. *)
Lemma only_the_first_device_is_announced_online_witness :
  yielded (status_update_devices globals_with_json [device_A; device_B]
             (always healthy) (fresh 3 1 [device_A; device_B]))
  = [[telemetry "A" healthy_data; online_event "A"]; [telemetry "B" healthy_data]].
Proof.
  refine (proj1 (only_the_first_device_is_announced_online globals_with_json
                   (fun _ => healthy_data) (always healthy)
                   (fresh 3 1 [device_A; device_B]) "A" (snd device_A) [device_B]
                   _ _ _ _ _ _)).
  - reflexivity.
  - reflexivity.
  - reflexivity.
  - intros name. reflexivity.
  - simpl. lia.
  - reflexivity.
Defined.

End Witnesses.
